(** * Health Check Exporter for Kessel services: model and properties

    A shallow embedding of [health_exporter.py]: the service registry
    [SERVICES], the probe [check_service_health], the formatter
    [generate_metrics] and the request handler [HealthExporterHandler].

    Python effects are made explicit.  The exporter runs in a state that
    holds the module global [SERVICES], the calls made to the [requests]
    library and the calls made to the logger; the network and the clock
    are an oracle [world].  A computation either returns a value or raises
    a Python exception. *)

From Stdlib Require Import ZArith String Ascii List Bool Lia DecimalString.
From stdpp Require Import base option list strings gmap.

Local Open Scope string_scope.
Local Open Scope Z_scope.

(** ** Python values and exceptions *)

(** The values a probe configuration holds. *)
Inductive pyval : Type :=
  | PyStr (s : string)
  | PyInt (n : Z)
  | PyNone.

(** The three classes named by the [except] clauses of the source. *)
Inductive pyclass : Type := Timeout | ConnectionError | Exception.

(** A raised object: its membership in each of those classes and its
    [str()].  A [requests] connect timeout is both a [Timeout] and a
    [ConnectionError]; [KeyboardInterrupt] and [SystemExit] are in none. *)
Record exn : Type := MkExn {
  exn_Timeout : bool;
  exn_ConnectionError : bool;
  exn_Exception : bool;
  exn_str : string
}.

Definition isinstance (e : exn) (c : pyclass) : bool :=
  match c with
  | Timeout => exn_Timeout e
  | ConnectionError => exn_ConnectionError e
  | Exception => exn_Exception e
  end.

(** [str(KeyError(k))] is the [repr] of the key. *)
Definition KeyError (k : string) : exn :=
  MkExn false false true ("'" +:+ k +:+ "'").

Definition AttributeError (msg : string) : exn :=
  MkExn false false true msg.

Definition type_name (v : pyval) : string :=
  match v with
  | PyStr _ => "str"
  | PyInt _ => "int"
  | PyNone => "NoneType"
  end.

(** ** Strings *)

(** [str.upper] on ASCII text: [a]..[z] go to [A]..[Z], every other byte
    is kept.  Outside ASCII Python's [str.upper] follows Unicode; where
    that matters the upper-casing is a parameter ([call_upper_with]). *)
Definition upper_ascii (c : ascii) : ascii :=
  let n := nat_of_ascii c in
  if ((97 <=? n) && (n <=? 122))%nat then ascii_of_nat (n - 32) else c.

Fixpoint upper (s : string) : string :=
  match s with
  | EmptyString => EmptyString
  | String c s' => String (upper_ascii c) (upper s')
  end.

(** [str(n)] for an [int]. *)
Definition str_int (n : Z) : string := NilZero.string_of_int (Z.to_int n).

(** The characters a Rocq string literal cannot hold directly. *)
Definition nl : string := String "010"%char EmptyString.
Definition dquote : string := String "034"%char EmptyString.

(** [sep.join(l)]. *)
Fixpoint join (sep : string) (l : list string) : string :=
  match l with
  | [] => ""
  | [x] => x
  | x :: l' => x +:+ sep +:+ join sep l'
  end.

(** ** The outside world and the state of the exporter *)

Inductive http_method : Type := GET | POST.

(** One call to [requests.get] or [requests.post], with the arguments the
    source passes. *)
Record request : Type := MkRequest {
  req_method : http_method;
  req_url : pyval;
  req_data : option pyval;
  req_headers : list (string * string);
  req_timeout : pyval;
  req_allow_redirects : bool
}.

Record response : Type := MkResponse { status_code : Z }.

Inductive outcome : Type :=
  | Responded (r : response)
  | Failed (e : exn).

(** The network answers a call knowing the calls made before it; the clock
    is read as [int(time.time())]. *)
Record world : Type := MkWorld {
  respond : list request -> request -> outcome;
  int_time : list request -> Z
}.

Inductive level : Type := DEBUG | INFO | WARNING | ERROR.

Record log_record : Type := MkLog { log_level : level; log_msg : string }.

Record state : Type := MkState {
  SERVICES : list (string * gmap string pyval);
  outbound : list request;
  logs : list log_record
}.

(** ** Computations that may raise *)

Inductive result (A : Type) : Type :=
  | Ret (a : A)
  | Raise (e : exn).
Arguments Ret {A} a.
Arguments Raise {A} e.

Definition M (A : Type) : Type := state -> result A * state.

#[export] Instance M_ret : MRet M := fun A a s => (Ret a, s).

#[export] Instance M_bind : MBind M := fun A B f c s =>
  match c s with
  | (Ret a, s') => f a s'
  | (Raise e, s') => (Raise e, s')
  end.

Definition raise {A : Type} (e : exn) : M A := fun s => (Raise e, s).

(** [try: body  except ...: handler]; the handler re-raises what no clause
    catches. *)
Definition try_except {A : Type} (body : M A) (handler : exn -> M A) : M A :=
  fun s =>
    match body s with
    | (Ret a, s') => (Ret a, s')
    | (Raise e, s') => handler e s'
    end.

(** [for x in xs: acc = body(acc, x)]. *)
Fixpoint for_each {A B : Type} (xs : list A) (body : B -> A -> M B) (acc : B)
  : M B :=
  match xs with
  | [] => mret acc
  | x :: xs' => acc' ← body acc x; for_each xs' body acc'
  end.

(** ** Dictionaries *)

(** [d[k]] *)
Definition getitem (d : gmap string pyval) (k : string) : M pyval :=
  match d !! k with
  | Some v => mret v
  | None => raise (KeyError k)
  end.

(** [d.get(k, default)] *)
Definition dict_get (d : gmap string pyval) (k : string) (default : pyval)
  : pyval :=
  match d !! k with
  | Some v => v
  | None => default
  end.

(** [v.upper()] *)
Definition call_upper (v : pyval) : M string :=
  match v with
  | PyStr s => mret (upper s)
  | _ => raise (AttributeError
                  ("'" +:+ type_name v +:+ "' object has no attribute 'upper'"))
  end.

(** A dict display [{k1: v1, ..., kn: vn}] keeps the position of the first
    occurrence of a key and the value of its last. *)
Fixpoint setitem {V : Type} (d : list (string * V)) (k : string) (v : V)
  : list (string * V) :=
  match d with
  | [] => [(k, v)]
  | (k', v') :: d' =>
      if String.eqb k' k then (k', v) :: d' else (k', v') :: setitem d' k v
  end.

Definition display_step {V : Type} (d : list (string * V)) (kv : string * V)
  : list (string * V) :=
  setitem d (fst kv) (snd kv).

Definition dict_display {V : Type} (items : list (string * V))
  : list (string * V) :=
  fold_left display_step items [].

(** [d.get(k)] on such a dict. *)
Fixpoint dict_lookup {V : Type} (d : list (string * V)) (k : string)
  : option V :=
  match d with
  | [] => None
  | (k', v) :: d' => if String.eqb k' k then Some v else dict_lookup d' k
  end.

(** ** Logging *)

Definition logger_log (l : level) (msg : string) : M unit :=
  fun s => (Ret tt, MkState (SERVICES s) (outbound s) (logs s ++ [MkLog l msg])%list).

Definition logger_debug := logger_log DEBUG.
Definition logger_warning := logger_log WARNING.
Definition logger_error := logger_log ERROR.

Section Exporter.

Variable w : world.

(** ** The [requests] library *)

Definition send (r : request) : M response :=
  fun s =>
    let s' := MkState (SERVICES s) (outbound s ++ [r])%list (logs s) in
    match respond w (outbound s) r with
    | Responded resp => (Ret resp, s')
    | Failed e => (Raise e, s')
    end.

Definition requests_post (url data : pyval) (headers : list (string * string))
    (timeout : pyval) (allow_redirects : bool) : M response :=
  send (MkRequest POST url (Some data) headers timeout allow_redirects).

Definition requests_get (url : pyval) (timeout : pyval)
    (allow_redirects : bool) : M response :=
  send (MkRequest GET url None [] timeout allow_redirects).

(** ** check_service_health *)

Definition check_service_health (service_name : string)
    (config : gmap string pyval) : M Z :=
  try_except
    (method ← call_upper (dict_get config "method" (PyStr "GET"));
     response ←
       (if String.eqb method "POST" then
          url ← getitem config "url";
          let data := dict_get config "body" (PyStr "") in
          timeout ← getitem config "timeout";
          requests_post url data [("Content-Type", "application/json")]
                        timeout true
        else
          url ← getitem config "url";
          timeout ← getitem config "timeout";
          requests_get url timeout true);
     if (200 <=? status_code response) && (status_code response <? 400) then
       logger_debug (service_name +:+ ": UP (status "
                       +:+ str_int (status_code response) +:+ ")");;
       mret 1
     else
       logger_warning (service_name +:+ ": DOWN (status "
                         +:+ str_int (status_code response) +:+ ")");;
       mret 0)
    (fun e =>
       if isinstance e Timeout then
         logger_warning (service_name +:+ ": TIMEOUT");;
         mret 0
       else if isinstance e ConnectionError then
         logger_warning (service_name +:+ ": CONNECTION_ERROR");;
         mret 0
       else if isinstance e Exception then
         logger_error (service_name +:+ ": ERROR - " +:+ exn_str e);;
         mret 0
       else raise e).

(** ** generate_metrics *)

Definition services_items : M (list (string * gmap string pyval)) :=
  fun s => (Ret (SERVICES s), s).

Definition time_time : M Z :=
  fun s => (Ret (int_time w (outbound s)), s).

Definition generate_metrics : M string :=
  let metrics : list string := [] in
  let metrics := (metrics ++ ["# HELP up Health check status (1 = up, 0 = down)"])%list in
  let metrics := (metrics ++ ["# TYPE up gauge"])%list in
  items ← services_items;
  metrics ← for_each items
    (fun metrics '(service_name, config) =>
       status ← check_service_health service_name config;
       mret (metrics ++ ["up{job=" +:+ dquote +:+ service_name +:+ dquote
                           +:+ "} " +:+ str_int status])%list)
    metrics;
  now ← time_time;
  let metrics := (metrics ++ ["# Health checks completed at " +:+ str_int now])%list in
  mret (join nl metrics +:+ nl).

(** ** HealthExporterHandler *)

(** What the handler writes back: [send_response], [send_header]s and the
    body, or one [send_error].  The access log line that the base class
    writes for each of them through [log_message] is left out of [logs],
    and writing to the client is taken to succeed. *)
Inductive reply : Type :=
  | Reply (status : Z) (headers : list (string * string)) (body : string)
  | ErrorReply (code : Z) (message : string).

Definition reply_status (r : reply) : Z :=
  match r with
  | Reply status _ _ => status
  | ErrorReply code _ => code
  end.

Definition do_GET (path : string) : M reply :=
  if String.eqb path "/metrics" then
    try_except
      (metrics ← generate_metrics;
       mret (Reply 200 [("Content-Type", "text/plain; version=0.0.4")] metrics))
      (fun e =>
         if isinstance e Exception then
           logger_error ("Error generating metrics: " +:+ exn_str e);;
           mret (ErrorReply 500 ("Internal Server Error: " +:+ exn_str e))
         else raise e)
  else if String.eqb path "/health" || String.eqb path "/healthz" then
    mret (Reply 200 [("Content-Type", "text/plain")] ("OK" +:+ nl))
  else
    mret (ErrorReply 404 "Not Found").

(** The dispatch of [BaseHTTPRequestHandler], which the handler class
    inherits, for a request that [parse_request] has accepted: [command]
    and [path] are [self.command] and [self.path] as the parser has set
    them.  The handler class defines [do_GET] and no other [do_<METHOD>],
    so every other command is answered by the dispatch itself. *)
Definition handle_one_request (command path : string) : M reply :=
  if String.eqb command "GET" then do_GET path
  else mret (ErrorReply 501 ("Unsupported method ('" +:+ command +:+ "')")).

End Exporter.

(** ** The inbound side *)

(** What [BaseHTTPRequestHandler] makes of an inbound request before any
    method of the handler runs.  It accepts the request and sets
    [self.command] and [self.path] (the path as the parser hands it over,
    which need not be the path as it was sent), or it refuses the request:
    it answers itself or closes the connection without an answer.  The
    parser is library code and is taken as it is. *)
Inductive parse_result : Type :=
  | Accepted (command path : string)
  | Refused (answer : option reply).

Definition answer_request (w : world) (p : parse_result) : M (option reply) :=
  match p with
  | Accepted command path =>
      r ← handle_one_request w command path; mret (Some r)
  | Refused answer => mret answer
  end.

(** ** The registry *)

Definition relations_config : gmap string pyval :=
  {[ "url" := PyStr "http://kessel-relations-api:8000/api/authz/v1beta1/tuples";
     "timeout" := PyInt 5;
     "method" := PyStr "POST";
     "body" := PyStr ("{" +:+ dquote +:+ "tuples" +:+ dquote +:+ ":[]}") ]}.

Definition inventory_config : gmap string pyval :=
  {[ "url" := PyStr "http://kessel-inventory-api:8000/api/kessel/v1/livez";
     "timeout" := PyInt 5 ]}.

Definition rbac_config : gmap string pyval :=
  {[ "url" := PyStr "http://insights-rbac:8080/api/rbac/v1/status/";
     "timeout" := PyInt 5 ]}.

Definition host_inventory_config : gmap string pyval :=
  {[ "url" := PyStr "http://insights-host-inventory:8080/health";
     "timeout" := PyInt 5 ]}.

(** The entries of the [SERVICES] literal, in the order they are written. *)
Definition SERVICES_entries : list (string * gmap string pyval) :=
  [ ("relations-api", relations_config);
    ("inventory-api", inventory_config);
    ("rbac", rbac_config);
    ("host-inventory", host_inventory_config) ].

(** Loading the module evaluates the dict display and binds [SERVICES];
    nothing is validated and nothing can raise. *)
Definition load_module (entries : list (string * gmap string pyval))
  : result state :=
  Ret (MkState (dict_display entries) [] []).

(** ** Vocabulary of the properties *)

(** Every failure the network reports is an instance of [Exception]
    (interpreter signals such as [KeyboardInterrupt] are not). *)
Definition raises_only_Exception (w : world) : Prop :=
  forall h r e, respond w h r = Failed e -> isinstance e Exception = true.

(** Equality of ASCII text up to the case of its letters. *)
Definition is_letter (c : ascii) : bool :=
  let n := nat_of_ascii c in
  (((65 <=? n) && (n <=? 90)) || ((97 <=? n) && (n <=? 122)))%nat.

Definition eqb_nocase_ascii (a b : ascii) : bool :=
  Ascii.eqb a b
  || (is_letter a && is_letter b
      && (nat_of_ascii a mod 32 =? nat_of_ascii b mod 32)%nat).

Fixpoint eqb_nocase (a b : string) : bool :=
  match a, b with
  | EmptyString, EmptyString => true
  | String x a', String y b' => eqb_nocase_ascii x y && eqb_nocase a' b'
  | _, _ => false
  end.

(** [s.split(nl)] *)
Fixpoint split_lines (s : string) : list string :=
  match s with
  | EmptyString => [EmptyString]
  | String c s' =>
      if Ascii.eqb c "010" then EmptyString :: split_lines s'
      else match split_lines s' with
           | [] => [String c EmptyString]
           | l :: ls => String c l :: ls
           end
  end.

Fixpoint no_newline (s : string) : bool :=
  match s with
  | EmptyString => true
  | String c s' => negb (Ascii.eqb c "010") && no_newline s'
  end.

(** [s.startswith(p)] *)
Fixpoint startswith (s p : string) {struct p} : bool :=
  match p with
  | EmptyString => true
  | String a p' =>
      match s with
      | EmptyString => false
      | String b s' => Ascii.eqb a b && startswith s' p'
      end
  end.

(** A line of the output that starts a sample of the metric [up]. *)
Definition is_metric_line (l : string) : bool :=
  startswith l ("up{job=" +:+ dquote).

Definition metric_lines (out : string) : list string :=
  List.filter is_metric_line (split_lines out).

(** The sample line the format prescribes for one service. *)
Definition sample_line (name : string) (up : bool) : string :=
  "up{job=" +:+ dquote +:+ name +:+ dquote +:+ "} "
    +:+ (if up then "1" else "0").

(** The exposition the format prescribes: HELP, TYPE, one sample per
    service, the completion comment, each followed by a newline. *)
Definition exposition (samples : list (string * bool)) (epoch : Z) : string :=
  "# HELP up Health check status (1 = up, 0 = down)" +:+ nl
    +:+ "# TYPE up gauge" +:+ nl
    +:+ fold_right (fun '(name, up) rest => sample_line name up +:+ nl +:+ rest)
          ("# Health checks completed at " +:+ str_int epoch +:+ nl)
          samples.

(** ** Sample worlds, registries and requests *)

(** A network that answers every call with the same status code. *)
Definition answering (code epoch : Z) : world :=
  MkWorld (fun _ _ => Responded (MkResponse code)) (fun _ => epoch).

(** A network on which every call fails the same way. *)
Definition failing (e : exn) (epoch : Z) : world :=
  MkWorld (fun _ _ => Failed e) (fun _ => epoch).

Definition refused : exn := MkExn false true true "Connection refused".
Definition read_timeout : exn := MkExn true false true "Read timed out".
Definition connect_timeout : exn := MkExn true true true "Connect timed out".

Definition boot (entries : list (string * gmap string pyval)) : state :=
  MkState (dict_display entries) [] [].

(** A service name that closes its own label and opens a second sample. *)
Definition forged_name : string :=
  "a" +:+ dquote +:+ "} 7" +:+ nl +:+ "up{job=" +:+ dquote +:+ "b".

(** A service name of two lines, with no quote and no backslash. *)
Definition two_line_name : string := "a" +:+ nl +:+ "b".

(** Two entries under one name. *)
Definition duplicate_entries : list (string * gmap string pyval) :=
  [ ("rbac", rbac_config); ("rbac", relations_config) ].

(** An entry whose url is no URL, and one that has none. *)
Definition malformed_entries : list (string * gmap string pyval) :=
  [ ("rbac", {[ "url" := PyStr "http://[::1"; "timeout" := PyInt 5 ]});
    ("inventory-api", {[ "timeout" := PyInt 5 ]}) ].

(** ** Vocabulary of the sweep *)

(** The call a configuration leads to: none when the method is no string
    or when the url or the timeout is missing. *)
Definition probe_request (config : gmap string pyval) : option request :=
  match dict_get config "method" (PyStr "GET") with
  | PyStr m =>
      match config !! "url", config !! "timeout" with
      | Some u, Some t =>
          Some (if String.eqb (upper m) "POST"
                then MkRequest POST u (Some (dict_get config "body" (PyStr "")))
                       [("Content-Type", "application/json")] t true
                else MkRequest GET u None [] t true)
      | _, _ => None
      end
  | _ => None
  end.

(** Up or down, for the outcome of one call. *)
Definition verdict (o : outcome) : bool :=
  match o with
  | Responded resp => (200 <=? status_code resp) && (status_code resp <? 400)
  | Failed _ => false
  end.

(** The calls of a sweep over the given configurations, in order. *)
Definition probe_calls (configs : list (gmap string pyval)) : list request :=
  omap probe_request configs.

(** The samples of a sweep that starts after the calls [h]. *)
Fixpoint probe_results (w : world) (h : list request)
    (configs : list (gmap string pyval)) : list bool :=
  match configs with
  | [] => []
  | config :: configs' =>
      match probe_request config with
      | None => false :: probe_results w h configs'
      | Some r =>
          verdict (respond w h r) :: probe_results w (h ++ [r])%list configs'
      end
  end.


(** A signal that is an instance of none of the three classes. *)
Definition interrupt : exn := MkExn false false false "".

(** A network on which the first call is answered 200 and every later one
    is interrupted. *)
Definition interrupted_after_one : world :=
  MkWorld (fun h _ => match h with
                      | [] => Responded (MkResponse 200)
                      | _ => Failed interrupt
                      end)
          (fun _ => 0).

(** ** The probe over any upper-casing *)

(** Text whose bytes are all ASCII. *)
Fixpoint is_ascii (s : string) : bool :=
  match s with
  | EmptyString => true
  | String c s' => (nat_of_ascii c <? 128)%nat && is_ascii s'
  end.

(** [v.upper()], with the built-in [str.upper] as a parameter: Python's
    follows Unicode, of which [upper] is the ASCII part. *)
Definition call_upper_with (str_upper : string -> string) (v : pyval)
  : M string :=
  match v with
  | PyStr s => mret (str_upper s)
  | _ => raise (AttributeError
                  ("'" +:+ type_name v +:+ "' object has no attribute 'upper'"))
  end.

(** [check_service_health], with [str.upper] as a parameter. *)
Definition check_service_health_with (str_upper : string -> string)
    (w : world) (service_name : string) (config : gmap string pyval) : M Z :=
  try_except
    (method ← call_upper_with str_upper (dict_get config "method" (PyStr "GET"));
     response ←
       (if String.eqb method "POST" then
          url ← getitem config "url";
          let data := dict_get config "body" (PyStr "") in
          timeout ← getitem config "timeout";
          requests_post w url data [("Content-Type", "application/json")]
                        timeout true
        else
          url ← getitem config "url";
          timeout ← getitem config "timeout";
          requests_get w url timeout true);
     if (200 <=? status_code response) && (status_code response <? 400) then
       logger_debug (service_name +:+ ": UP (status "
                       +:+ str_int (status_code response) +:+ ")");;
       mret 1
     else
       logger_warning (service_name +:+ ": DOWN (status "
                         +:+ str_int (status_code response) +:+ ")");;
       mret 0)
    (fun e =>
       if isinstance e Timeout then
         logger_warning (service_name +:+ ": TIMEOUT");;
         mret 0
       else if isinstance e ConnectionError then
         logger_warning (service_name +:+ ": CONNECTION_ERROR");;
         mret 0
       else if isinstance e Exception then
         logger_error (service_name +:+ ": ERROR - " +:+ exn_str e);;
         mret 0
       else raise e).

(** The method post spelt with the long s (U+017F, the bytes 197 and 191
    in UTF-8) in place of the s: [str.upper] takes it to POST. *)
Definition long_s_post : string :=
  "po" +:+ String "197"%char (String "191"%char "t").

(** An upper-casing that is [upper] on ASCII text and knows the long s. *)
Definition upper_with_long_s (m : string) : string :=
  if String.eqb m long_s_post then "POST" else upper m.

(** ** Vocabulary of the registry *)

(** The keys of a dict display, in the order of their first occurrence;
    [seen] holds the keys met so far. *)
Fixpoint distinct_from (seen keys : list string) : list string :=
  match keys with
  | [] => []
  | k :: keys' =>
      if existsb (String.eqb k) seen then distinct_from seen keys'
      else k :: distinct_from (seen ++ [k])%list keys'
  end.

Definition first_occurrences (keys : list string) : list string :=
  distinct_from [] keys.

(** Three entries, the first and the last under one name. *)
Definition repeated_entries : list (string * gmap string pyval) :=
  [ ("rbac", rbac_config);
    ("inventory-api", inventory_config);
    ("rbac", relations_config) ].

(** * Properties *)

(** ** Running a computation *)

Ltac unfold_monad :=
  unfold try_except, mbind, M_bind, mret, M_ret, raise, getitem, call_upper,
    requests_post, requests_get, send, logger_debug, logger_warning,
    logger_error, logger_log in *.

Lemma app_singleton_neq {A : Type} (l : list A) (x : A) : l <> (l ++ [x])%list.
Proof.
  intros H. apply (f_equal List.length) in H.
  rewrite length_app in H. simpl in H. lia.
Qed.

Lemma app_singleton_inj {A : Type} (l : list A) (x y : A) :
  (l ++ [x])%list = (l ++ [y])%list -> x = y.
Proof.
  intros H. apply app_inv_head in H. congruence.
Qed.

(** The probe makes at most one call, and only after the configuration
    gave a method string, a url and a timeout. *)
Lemma check_service_health_cases (w : world) (name : string)
    (config : gmap string pyval) (s : state) :
  let run := check_service_health w name config s in
  (outbound (snd run) = outbound s /\ fst run = Ret 0 /\
   exists msg, logs (snd run) = (logs s ++ [MkLog ERROR (name +:+ ": ERROR - " +:+ msg)])%list)
  \/
  (exists m u t,
      dict_get config "method" (PyStr "GET") = PyStr m /\
      config !! "url" = Some u /\ config !! "timeout" = Some t /\
      run = try_except
              (response ← send w
                 (if String.eqb (upper m) "POST"
                  then MkRequest POST u (Some (dict_get config "body" (PyStr "")))
                         [("Content-Type", "application/json")] t true
                  else MkRequest GET u None [] t true);
               if (200 <=? status_code response) && (status_code response <? 400) then
                 logger_debug (name +:+ ": UP (status "
                                 +:+ str_int (status_code response) +:+ ")");;
                 mret 1
               else
                 logger_warning (name +:+ ": DOWN (status "
                                   +:+ str_int (status_code response) +:+ ")");;
                 mret 0)
              (fun e =>
                 if isinstance e Timeout then
                   logger_warning (name +:+ ": TIMEOUT");; mret 0
                 else if isinstance e ConnectionError then
                   logger_warning (name +:+ ": CONNECTION_ERROR");; mret 0
                 else if isinstance e Exception then
                   logger_error (name +:+ ": ERROR - " +:+ exn_str e);; mret 0
                 else raise e) s).
Proof.
  intros run. subst run. unfold check_service_health.
  destruct (dict_get config "method" (PyStr "GET")) as [m| |] eqn:Hm.
  2,3: left; unfold_monad; simpl; eauto.
  destruct (config !! "url") as [u|] eqn:Hu.
  2: { left. unfold_monad. simpl. rewrite Hu.
       destruct (String.eqb (upper m) "POST"); simpl; eauto. }
  destruct (config !! "timeout") as [t|] eqn:Ht.
  2: { left. unfold_monad. simpl. rewrite Hu, Ht.
       destruct (String.eqb (upper m) "POST"); simpl; eauto. }
  right. exists m, u, t. repeat split; auto.
  unfold_monad. simpl. rewrite Hu, Ht.
  destruct (String.eqb (upper m) "POST"); reflexivity.
Qed.

(** What the probe does once the call [r] has been made, by outcome. *)
Lemma check_service_health_called (w : world) (name : string)
    (config : gmap string pyval) (s : state) (r : request) :
  let run := check_service_health w name config s in
  outbound (snd run) = (outbound s ++ [r])%list ->
  let s1 := MkState (SERVICES s) (outbound s ++ [r])%list (logs s) in
  let say l msg := MkState (SERVICES s) (outbound s ++ [r])%list
                     (logs s ++ [MkLog l (name +:+ msg)])%list in
  match respond w (outbound s) r with
  | Responded resp =>
      if (200 <=? status_code resp) && (status_code resp <? 400)
      then run = (Ret 1, say DEBUG (": UP (status " +:+ str_int (status_code resp) +:+ ")"))
      else run = (Ret 0, say WARNING (": DOWN (status " +:+ str_int (status_code resp) +:+ ")"))
  | Failed e =>
      if isinstance e Timeout then run = (Ret 0, say WARNING ": TIMEOUT")
      else if isinstance e ConnectionError
           then run = (Ret 0, say WARNING ": CONNECTION_ERROR")
      else if isinstance e Exception
           then run = (Ret 0, say ERROR (": ERROR - " +:+ exn_str e))
      else run = (Raise e, s1)
  end.
Proof.
  intros run Hsent s1 say.
  destruct (check_service_health_cases w name config s)
    as [(Hout & _)|(m & u & t & _ & _ & _ & Hrun)]; fold run in Hout || fold run in Hrun.
  { rewrite Hout in Hsent. exfalso. eapply app_singleton_neq, Hsent. }
  set (r0 := if String.eqb (upper m) "POST" then _ else _) in Hrun.
  assert (Hr : r0 = r).
  { rewrite Hrun in Hsent. unfold_monad.
    destruct (respond w (outbound s) r0) as [resp|e]; simpl in Hsent.
    - destruct ((200 <=? status_code resp) && (status_code resp <? 400));
        simpl in Hsent; eapply app_singleton_inj, Hsent.
    - destruct e as [[] [] [] msg]; simpl in Hsent;
        eapply app_singleton_inj, Hsent. }
  subst r0. rewrite Hr in Hrun. rewrite Hrun. unfold_monad.
  destruct (respond w (outbound s) r) as [resp|e]; simpl.
  - destruct ((200 <=? status_code resp) && (status_code resp <? 400));
      reflexivity.
  - destruct e as [[] [] [] msg]; reflexivity.
Qed.

(** ** The probe never raises *)

Lemma check_service_health_returns (w : world) (name : string)
    (config : gmap string pyval) (s : state) :
  raises_only_Exception w ->
  exists v s', check_service_health w name config s = (Ret v, s')
               /\ (v = 0 \/ v = 1) /\ SERVICES s' = SERVICES s.
Proof.
  intros Hw. unfold check_service_health. unfold_monad.
  destruct (dict_get config "method" (PyStr "GET")) as [m| |]; simpl;
    [|eauto 10|eauto 10].
  destruct (String.eqb (upper m) "POST");
    (destruct (config !! "url"); simpl; [|solve [eauto 10]]);
    (destruct (config !! "timeout"); simpl; [|solve [eauto 10]]);
    match goal with |- context [respond w ?h ?r] =>
      pose proof (Hw h r) as He; destruct (respond w h r) as [resp|e] end;
    simpl;
    try (destruct ((200 <=? status_code resp) && (status_code resp <? 400));
         simpl; solve [eauto 10]);
    specialize (He e eq_refl);
    destruct e as [[] [] [] msg]; simpl in *; solve [eauto 10 | discriminate].
Qed.

(** C1: whatever the configuration holds and whatever the network answers
    (a response with any status, a timeout, a connection failure or any
    other instance of [Exception]), [check_service_health] returns, and
    what it returns is exactly 0 or exactly 1. *)
Theorem check_service_health_never_raises (w : world) (name : string)
    (config : gmap string pyval) (s : state) :
  raises_only_Exception w ->
  exists v s', check_service_health w name config s = (Ret v, s')
               /\ (v = 0 \/ v = 1).
Proof.
  intros Hw.
  destruct (check_service_health_returns w name config s Hw)
    as (v & s' & Hrun & Hv & _).
  eauto.
Qed.

(** ** Classification of the outcome *)

Lemma in_range_spec (code : Z) :
  (200 <=? code) && (code <? 400) = true <-> 200 <= code < 400.
Proof.
  rewrite andb_true_iff, Z.leb_le, Z.ltb_lt. tauto.
Qed.

(** C2: when the call was made and answered by a response, the probe
    returns 1 exactly when the final status code lies in [200, 400) and 0
    for every other code; 204 is up, 404 is down, and the call is made with
    redirects followed, so the code classified is the final one. *)
Theorem status_code_classification (w : world) (name : string)
    (config : gmap string pyval) (s : state) (r : request) (resp : response) :
  let run := check_service_health w name config s in
  outbound (snd run) = (outbound s ++ [r])%list ->
  respond w (outbound s) r = Responded resp ->
  (fst run = Ret 1 <-> 200 <= status_code resp < 400)
  /\ (fst run = Ret 0 <-> ~ (200 <= status_code resp < 400))
  /\ (status_code resp = 204 -> fst run = Ret 1)
  /\ (status_code resp = 404 -> fst run = Ret 0)
  /\ req_allow_redirects r = true.
Proof.
  intros run Hsent Hresp.
  pose proof (check_service_health_called w name config s r Hsent) as H.
  cbv zeta in H. rewrite Hresp in H. fold run in H.
  assert (Hredirect : req_allow_redirects r = true).
  { destruct (check_service_health_cases w name config s)
      as [(Hout & _)|(m & u & t & _ & _ & _ & Hrun)]; fold run in Hout || fold run in Hrun.
    - rewrite Hout in Hsent. exfalso. eapply app_singleton_neq, Hsent.
    - rewrite Hrun in Hsent. unfold_monad.
      match type of Hsent with context [respond w ?h ?r0] =>
        assert (r0 = r) as <-;
        [ destruct (respond w h r0) as [resp0|[[] [] [] msg]]; simpl in Hsent;
          try destruct ((200 <=? status_code resp0) && (status_code resp0 <? 400));
          simpl in Hsent; eapply app_singleton_inj, Hsent
        | destruct (String.eqb (upper m) "POST"); reflexivity ]
      end. }
  pose proof (in_range_spec (status_code resp)) as Hrange.
  destruct ((200 <=? status_code resp) && (status_code resp <? 400));
    rewrite H; simpl; repeat split; auto; try congruence; try tauto; try lia;
    intros; try solve [exfalso; intuition (try congruence; lia)].
Qed.

(** ** The failure branches *)

Lemma append_inj_l (p a b : string) : p +:+ a = p +:+ b -> a = b.
Proof.
  induction p as [|c p IH]; simpl; intros H; [assumption|].
  injection H as H. auto.
Qed.

(** C8: a call that ends in a [Timeout] makes the probe return 0 and log
    the warning TIMEOUT; one that ends in a [ConnectionError] (and is not a
    timeout, which is tried first) makes it return 0 and log the warning
    CONNECTION_ERROR.  The records logged by these two branches differ
    from each other, from the warning of the bad-status branch and from
    the error of the unexpected-failure branch. *)
Theorem timeout_and_connection_error (w : world) (name : string)
    (config : gmap string pyval) (s : state) (r : request) :
  let run := check_service_health w name config s in
  let logged l msg := (logs s ++ [MkLog l (name +:+ msg)])%list in
  outbound (snd run) = (outbound s ++ [r])%list ->
  (forall e, respond w (outbound s) r = Failed e ->
             isinstance e Timeout = true ->
             fst run = Ret 0 /\ logs (snd run) = logged WARNING ": TIMEOUT")
  /\ (forall e, respond w (outbound s) r = Failed e ->
                isinstance e Timeout = false ->
                isinstance e ConnectionError = true ->
                fst run = Ret 0
                /\ logs (snd run) = logged WARNING ": CONNECTION_ERROR")
  /\ (forall resp, respond w (outbound s) r = Responded resp ->
                   ~ (200 <= status_code resp < 400) ->
                   fst run = Ret 0
                   /\ logs (snd run)
                      = logged WARNING (": DOWN (status "
                                          +:+ str_int (status_code resp) +:+ ")"))
  /\ (forall e, respond w (outbound s) r = Failed e ->
                isinstance e Timeout = false ->
                isinstance e ConnectionError = false ->
                isinstance e Exception = true ->
                fst run = Ret 0
                /\ logs (snd run) = logged ERROR (": ERROR - " +:+ exn_str e))
  /\ MkLog WARNING (name +:+ ": TIMEOUT")
       <> MkLog WARNING (name +:+ ": CONNECTION_ERROR")
  /\ (forall code l,
         l = MkLog WARNING (name +:+ ": TIMEOUT")
         \/ l = MkLog WARNING (name +:+ ": CONNECTION_ERROR") ->
         l <> MkLog WARNING (name +:+ ": DOWN (status " +:+ str_int code +:+ ")"))
  /\ (forall msg l,
         l = MkLog WARNING (name +:+ ": TIMEOUT")
         \/ l = MkLog WARNING (name +:+ ": CONNECTION_ERROR") ->
         l <> MkLog ERROR (name +:+ ": ERROR - " +:+ msg)).
Proof.
  intros run logged Hsent.
  pose proof (check_service_health_called w name config s r Hsent) as H.
  cbv zeta in H. fold run in H.
  split; [|split; [|split; [|split; [|split; [|split]]]]].
  - intros e He Ht. rewrite He, Ht in H. rewrite H. split; reflexivity.
  - intros e He Ht Hc. rewrite He, Ht, Hc in H. rewrite H. split; reflexivity.
  - intros resp He Hbad. rewrite He in H.
    pose proof (in_range_spec (status_code resp)) as Hr.
    destruct ((200 <=? status_code resp) && (status_code resp <? 400));
      [tauto | rewrite H; split; reflexivity].
  - intros e He Ht Hc Hx. rewrite He, Ht, Hc, Hx in H. rewrite H.
    split; reflexivity.
  - intros Heq. injection Heq as Heq. apply append_inj_l in Heq. discriminate.
  - intros code l [-> | ->] Heq; injection Heq as Heq;
      apply append_inj_l in Heq; discriminate.
  - intros msg l [-> | ->] Heq; discriminate.
Qed.

(** ** The request that is sent *)

Lemma check_service_health_request (w : world) (name : string)
    (config : gmap string pyval) (s : state) (m : string) (u t : pyval) :
  dict_get config "method" (PyStr "GET") = PyStr m ->
  config !! "url" = Some u ->
  config !! "timeout" = Some t ->
  outbound (snd (check_service_health w name config s))
  = (outbound s
       ++ [if String.eqb (upper m) "POST"
           then MkRequest POST u (Some (dict_get config "body" (PyStr "")))
                  [("Content-Type", "application/json")] t true
           else MkRequest GET u None [] t true])%list.
Proof.
  intros Hm Hu Ht. unfold check_service_health. rewrite Hm.
  unfold_monad. simpl. rewrite Hu, Ht.
  destruct (String.eqb (upper m) "POST"); simpl;
    match goal with |- context [respond w ?h ?r] =>
      destruct (respond w h r) as [resp|[[] [] [] msg]] end; simpl;
    try destruct ((200 <=? status_code resp) && (status_code resp <? 400));
    reflexivity.
Qed.

(** C9: a configuration with a url, a timeout and the method POST makes
    the probe call [requests.post] with the configured body as data, the
    single header Content-Type: application/json, the configured timeout
    and redirects followed; with the method GET it calls [requests.get]
    with the timeout and redirects followed, no data and no header. *)
Theorem request_construction (w : world) (name : string)
    (config : gmap string pyval) (s : state) (u t : pyval) :
  let sent := outbound (snd (check_service_health w name config s)) in
  config !! "url" = Some u ->
  config !! "timeout" = Some t ->
  (config !! "method" = Some (PyStr "POST") ->
   (forall b, config !! "body" = Some b ->
              sent = (outbound s
                        ++ [MkRequest POST u (Some b)
                              [("Content-Type", "application/json")] t true])%list)
   /\ (config !! "body" = None ->
       sent = (outbound s
                 ++ [MkRequest POST u (Some (PyStr ""))
                       [("Content-Type", "application/json")] t true])%list))
  /\ (config !! "method" = Some (PyStr "GET") ->
      sent = (outbound s ++ [MkRequest GET u None [] t true])%list).
Proof.
  intros sent Hu Ht. subst sent. split.
  - intros Hm.
    assert (Hget : dict_get config "method" (PyStr "GET") = PyStr "POST")
      by (unfold dict_get; rewrite Hm; reflexivity).
    rewrite (check_service_health_request w name config s _ u t Hget Hu Ht).
    simpl. unfold dict_get. split.
    + intros b Hb. rewrite Hb. reflexivity.
    + intros Hb. rewrite Hb. reflexivity.
  - intros Hm.
    assert (Hget : dict_get config "method" (PyStr "GET") = PyStr "GET")
      by (unfold dict_get; rewrite Hm; reflexivity).
    rewrite (check_service_health_request w name config s _ u t Hget Hu Ht).
    reflexivity.
Qed.

(** ** The method field *)

Lemma upper_ascii_nocase (c d : ascii) :
  In d ["P"; "O"; "S"; "T"]%char ->
  upper_ascii c = d <-> eqb_nocase_ascii c d = true.
Proof.
  intros Hd. simpl in Hd.
  destruct Hd as [<-|[<-|[<-|[<-|[]]]]];
    destruct c as [[] [] [] [] [] [] [] []]; vm_compute;
    split; intros H; solve [reflexivity | discriminate H].
Qed.

Lemma upper_POST (m : string) : upper m = "POST" <-> eqb_nocase m "POST" = true.
Proof.
  destruct m as [|c1 [|c2 [|c3 [|c4 [|c5 m]]]]];
    try (split; intros H; simpl in H; rewrite ?andb_false_r in H;
         discriminate H).
  change (upper (String c1 (String c2 (String c3 (String c4 "")))))
    with (String (upper_ascii c1) (String (upper_ascii c2)
           (String (upper_ascii c3) (String (upper_ascii c4) "")))).
  simpl eqb_nocase. rewrite !andb_true_iff.
  rewrite <- (upper_ascii_nocase c1 "P"), <- (upper_ascii_nocase c2 "O"),
    <- (upper_ascii_nocase c3 "S"), <- (upper_ascii_nocase c4 "T")
    by (simpl; tauto).
  split.
  - intros H. injection H as -> -> -> ->. tauto.
  - intros (-> & -> & -> & -> & _). reflexivity.
Qed.

Lemma upper_ascii_is_ascii (c d : ascii) :
  In d ["P"; "O"; "S"; "T"]%char ->
  upper_ascii c = d -> (nat_of_ascii c <? 128)%nat = true.
Proof.
  intros Hd. simpl in Hd.
  destruct Hd as [<-|[<-|[<-|[<-|[]]]]];
    destruct c as [[] [] [] [] [] [] [] []]; vm_compute;
    intros H; solve [reflexivity | discriminate H].
Qed.

Lemma upper_POST_is_ascii (m : string) :
  upper m = "POST" -> is_ascii m = true.
Proof.
  destruct m as [|c1 [|c2 [|c3 [|c4 [|c5 m]]]]]; try discriminate.
  intros H. injection H as H1 H2 H3 H4. simpl.
  rewrite (upper_ascii_is_ascii c1 "P"), (upper_ascii_is_ascii c2 "O"),
    (upper_ascii_is_ascii c3 "S"), (upper_ascii_is_ascii c4 "T");
    simpl; auto.
Qed.

(** With [upper] for [str.upper], the probe is [check_service_health]. *)
Lemma check_service_health_with_upper (w : world) (name : string)
    (config : gmap string pyval) :
  check_service_health_with upper w name config
  = check_service_health w name config.
Proof.
  reflexivity.
Qed.

Lemma check_service_health_with_request (str_upper : string -> string)
    (w : world) (name : string) (config : gmap string pyval) (s : state)
    (m : string) (u t : pyval) :
  dict_get config "method" (PyStr "GET") = PyStr m ->
  config !! "url" = Some u ->
  config !! "timeout" = Some t ->
  outbound (snd (check_service_health_with str_upper w name config s))
  = (outbound s
       ++ [if String.eqb (str_upper m) "POST"
           then MkRequest POST u (Some (dict_get config "body" (PyStr "")))
                  [("Content-Type", "application/json")] t true
           else MkRequest GET u None [] t true])%list.
Proof.
  intros Hm Hu Ht. unfold check_service_health_with, call_upper_with.
  rewrite Hm. unfold_monad. simpl. rewrite Hu, Ht.
  destruct (String.eqb (str_upper m) "POST"); simpl;
    match goal with |- context [respond w ?h ?r] =>
      destruct (respond w h r) as [resp|[[] [] [] msg]] end; simpl;
    try destruct ((200 <=? status_code resp) && (status_code resp <? 400));
    reflexivity.
Qed.

(** C10: the method field is compared after upper-casing, whatever
    [str.upper] does outside ASCII: every spelling of POST in any letter
    case is a POST probe, and so is every method that upper-cases to POST;
    every method that upper-cases to something else (PUT, for one) and an
    absent method field are probed with GET, not rejected. *)
Theorem method_field_dispatch (str_upper : string -> string) (w : world)
    (name : string) (config : gmap string pyval) (s : state) (u t : pyval) :
  (forall m, is_ascii m = true -> str_upper m = upper m) ->
  let sent :=
    outbound (snd (check_service_health_with str_upper w name config s)) in
  let post := MkRequest POST u (Some (dict_get config "body" (PyStr "")))
                [("Content-Type", "application/json")] t true in
  let get := MkRequest GET u None [] t true in
  config !! "url" = Some u ->
  config !! "timeout" = Some t ->
  (forall m, config !! "method" = Some (PyStr m) ->
             eqb_nocase m "POST" = true ->
             sent = (outbound s ++ [post])%list)
  /\ (forall m, config !! "method" = Some (PyStr m) ->
                str_upper m = "POST" ->
                sent = (outbound s ++ [post])%list)
  /\ (forall m, config !! "method" = Some (PyStr m) ->
                str_upper m <> "POST" ->
                sent = (outbound s ++ [get])%list)
  /\ (config !! "method" = Some (PyStr "PUT") ->
      sent = (outbound s ++ [get])%list)
  /\ (config !! "method" = None -> sent = (outbound s ++ [get])%list).
Proof.
  intros Hupper sent post get Hu Ht. subst sent post get.
  assert (Hstr : forall m, config !! "method" = Some (PyStr m) ->
                           dict_get config "method" (PyStr "GET") = PyStr m)
    by (intros m Hm; unfold dict_get; rewrite Hm; reflexivity).
  assert (Hpost : forall m, config !! "method" = Some (PyStr m) ->
                    str_upper m = "POST" ->
                    outbound (snd (check_service_health_with str_upper w name
                                     config s))
                    = (outbound s
                         ++ [MkRequest POST u
                               (Some (dict_get config "body" (PyStr "")))
                               [("Content-Type", "application/json")] t true])%list).
  { intros m Hm Heq.
    rewrite (check_service_health_with_request str_upper w name config s m u t
               (Hstr m Hm) Hu Ht).
    rewrite Heq. reflexivity. }
  assert (Hother : forall m, config !! "method" = Some (PyStr m) ->
                     str_upper m <> "POST" ->
                     outbound (snd (check_service_health_with str_upper w name
                                      config s))
                     = (outbound s ++ [MkRequest GET u None [] t true])%list).
  { intros m Hm Hne.
    rewrite (check_service_health_with_request str_upper w name config s m u t
               (Hstr m Hm) Hu Ht).
    destruct (String.eqb_spec (str_upper m) "POST"); [contradiction|reflexivity]. }
  split; [|split; [exact Hpost|split; [exact Hother|split]]].
  - intros m Hm Hcase. apply upper_POST in Hcase.
    apply (Hpost m Hm).
    rewrite (Hupper m (upper_POST_is_ascii m Hcase)). exact Hcase.
  - intros Hm. apply (Hother "PUT" Hm).
    rewrite (Hupper "PUT" eq_refl). discriminate.
  - intros Hm.
    assert (Hget : dict_get config "method" (PyStr "GET") = PyStr "GET")
      by (unfold dict_get; rewrite Hm; reflexivity).
    rewrite (check_service_health_with_request str_upper w name config s _ u t
               Hget Hu Ht).
    rewrite (Hupper "GET" eq_refl). reflexivity.
Qed.

(** ** The exposition *)

Lemma string_app_assoc (a b c : string) : (a +:+ b) +:+ c = a +:+ b +:+ c.
Proof.
  induction a as [|x a IH]; [reflexivity|].
  change ((String x a +:+ b) +:+ c) with (String x ((a +:+ b) +:+ c)).
  now rewrite IH.
Qed.

Lemma join_snoc (sep : string) (l : list string) (x : string) :
  join sep (l ++ [x])%list +:+ sep
  = fold_right (fun a rest => a +:+ sep +:+ rest) (x +:+ sep) l.
Proof.
  induction l as [|a l IH]; [reflexivity|].
  change ((a :: l) ++ [x])%list with (a :: (l ++ [x]))%list.
  simpl fold_right. rewrite <- IH.
  destruct (l ++ [x])%list as [|b l'] eqn:E.
  - destruct l; discriminate E.
  - change (join sep (a :: b :: l')) with (a +:+ sep +:+ join sep (b :: l')).
    now rewrite !string_app_assoc.
Qed.

Lemma str_int_bit (v : Z) :
  v = 0 \/ v = 1 -> str_int v = if Z.eqb v 1 then "1" else "0".
Proof.
  intros [-> | ->]; reflexivity.
Qed.

Lemma bind_run {A B : Type} (c : M A) (f : A -> M B) (s s1 : state) (a : A) :
  c s = (Ret a, s1) -> (c ≫= f) s = f a s1.
Proof.
  intros H. unfold mbind, M_bind. now rewrite H.
Qed.

(** One sweep over the registry: a sample line per entry, in order. *)
Lemma sweep (w : world) (items : list (string * gmap string pyval)) :
  raises_only_Exception w ->
  forall (metrics : list string) (s : state),
  exists (ups : list bool) (s' : state),
    List.length ups = List.length items
    /\ SERVICES s' = SERVICES s
    /\ for_each items
         (fun metrics '(service_name, config) =>
            status ← check_service_health w service_name config;
            mret (metrics ++ ["up{job=" +:+ dquote +:+ service_name +:+ dquote
                                +:+ "} " +:+ str_int status])%list)
         metrics s
       = (Ret (metrics
                 ++ map (fun '(name, up) => sample_line name up)
                      (combine (map fst items) ups))%list, s').
Proof.
  intros Hw. induction items as [|[name config] items IH]; intros metrics s.
  - exists [], s. simpl. rewrite app_nil_r. auto.
  - destruct (check_service_health_returns w name config s Hw)
      as (v & s1 & Hrun & Hv & Hs1).
    destruct (IH (metrics ++ ["up{job=" +:+ dquote +:+ name +:+ dquote
                                +:+ "} " +:+ str_int v])%list s1)
      as (ups & s' & Hlen & Hs' & Hloop).
    exists (Z.eqb v 1 :: ups), s'. simpl List.length.
    split; [congruence|]. split; [congruence|].
    change (for_each ((name, config) :: items) ?body metrics s)
      with ((body metrics (name, config)
               ≫= fun acc' => for_each items body acc') s).
    erewrite bind_run
      by (cbv beta iota; erewrite bind_run by exact Hrun; reflexivity).
    rewrite Hloop, <- app_assoc. simpl. unfold sample_line.
    rewrite (str_int_bit v Hv). reflexivity.
Qed.

#[local] Arguments String.append !_ _ / : simpl nomatch.

Lemma no_newline_app (a b : string) :
  no_newline (a +:+ b) = no_newline a && no_newline b.
Proof.
  induction a as [|x a IH]; simpl; [reflexivity|].
  rewrite IH. now rewrite andb_assoc.
Qed.

Lemma no_newline_uint (d : Decimal.uint) :
  no_newline (NilEmpty.string_of_uint d) = true.
Proof.
  induction d; simpl; auto.
Qed.

Lemma no_newline_str_int (n : Z) : no_newline (str_int n) = true.
Proof.
  unfold str_int. destruct (Z.to_int n) as [d|d]; simpl;
    destruct d; simpl; auto using no_newline_uint.
Qed.

Lemma str_int_nonempty (n : Z) : str_int n <> "".
Proof.
  unfold str_int. destruct (Z.to_int n) as [d|d]; simpl;
    destruct d; simpl; discriminate.
Qed.

Lemma last_char (s : string) :
  s <> "" -> no_newline s = true ->
  exists body c, s = body +:+ String c "" /\ c <> "010"%char.
Proof.
  induction s as [|x s IH]; intros Hne Hnl; [contradiction|].
  simpl in Hnl. apply andb_true_iff in Hnl as [Hx Hs].
  destruct s as [|y s].
  - exists "", x. split; [reflexivity|].
    intros ->. discriminate Hx.
  - destruct IH as (body & c & Heq & Hc); [discriminate|assumption|].
    exists (String x body), c. simpl. rewrite <- Heq. auto.
Qed.

(** The exposition ends with exactly one newline. *)
Lemma exposition_ends (samples : list (string * bool)) (epoch : Z) :
  exists body c, exposition samples epoch = body +:+ String c nl
                 /\ c <> "010"%char.
Proof.
  unfold exposition.
  assert (H : exists body c,
             fold_right (fun '(name, up) rest => sample_line name up +:+ nl +:+ rest)
               ("# Health checks completed at " +:+ str_int epoch +:+ nl) samples
             = body +:+ String c nl /\ c <> "010"%char).
  { induction samples as [|[name up] samples (body & c & Heq & Hc)].
    - destruct (last_char (str_int epoch) (str_int_nonempty epoch)
                  (no_newline_str_int epoch)) as (body & c & Heq & Hc).
      exists ("# Health checks completed at " +:+ body), c. split; [|exact Hc].
      cbn [fold_right]. rewrite Heq. rewrite !string_app_assoc. reflexivity.
    - exists (sample_line name up +:+ nl +:+ body), c. split; [|exact Hc].
      cbn [fold_right]. rewrite Heq. rewrite !string_app_assoc. reflexivity. }
  destruct H as (body & c & Heq & Hc).
  exists ("# HELP up Health check status (1 = up, 0 = down)" +:+ nl
            +:+ "# TYPE up gauge" +:+ nl +:+ body), c.
  split; [|exact Hc]. rewrite Heq. rewrite !string_app_assoc. reflexivity.
Qed.

Lemma generate_metrics_run (w : world) (s : state) :
  raises_only_Exception w ->
  exists (ups : list bool) (s' : state),
    List.length ups = List.length (SERVICES s)
    /\ SERVICES s' = SERVICES s
    /\ generate_metrics w s
       = (Ret (exposition (combine (map fst (SERVICES s)) ups)
                 (int_time w (outbound s'))), s').
Proof.
  intros Hw.
  destruct (sweep w (SERVICES s) Hw
              ["# HELP up Health check status (1 = up, 0 = down)";
               "# TYPE up gauge"] s)
    as (ups & s' & Hlen & Hs' & Hloop).
  exists ups, s'. split; [exact Hlen|]. split; [exact Hs'|].
  unfold generate_metrics.
  erewrite bind_run by reflexivity.
  erewrite bind_run by exact Hloop.
  erewrite bind_run by reflexivity.
  unfold mret, M_ret. f_equal. f_equal.
  rewrite join_snoc, string_app_assoc. unfold exposition.
  generalize (combine (map fst (SERVICES s)) ups) as samples.
  generalize ("# Health checks completed at "
                +:+ str_int (int_time w (outbound s')) +:+ nl) as last.
  intros last samples.
  change (["# HELP up Health check status (1 = up, 0 = down)"; "# TYPE up gauge"]
            ++ map (fun '(name, up) => sample_line name up) samples)%list
    with ("# HELP up Health check status (1 = up, 0 = down)"
            :: "# TYPE up gauge"
            :: map (fun '(name, up) => sample_line name up) samples).
  cbn [fold_right]. do 4 f_equal.
  induction samples as [|[name up] samples IH]; [reflexivity|].
  cbn [map fold_right]. now rewrite IH.
Qed.

(** ** The lines of the output *)

Lemma split_lines_line (a rest : string) :
  no_newline a = true ->
  split_lines (a +:+ nl +:+ rest) = a :: split_lines rest.
Proof.
  induction a as [|x a IH]; intros Hnl; [reflexivity|].
  simpl in Hnl. apply andb_true_iff in Hnl as [Hx Ha].
  simpl. change (String "010" rest) with (nl +:+ rest). rewrite (IH Ha).
  destruct (Ascii.eqb x "010"); [discriminate Hx | reflexivity].
Qed.

Lemma split_lines_last (a : string) :
  no_newline a = true -> split_lines (a +:+ nl) = [a; ""].
Proof.
  intros Hnl. change (a +:+ nl) with (a +:+ nl +:+ "").
  now rewrite split_lines_line.
Qed.

Lemma no_newline_sample_line (name : string) (up : bool) :
  no_newline (sample_line name up) = no_newline name.
Proof.
  unfold sample_line. rewrite !no_newline_app.
  destruct up; simpl; now rewrite !andb_true_r.
Qed.

Lemma startswith_app (p s : string) : startswith (p +:+ s) p = true.
Proof.
  induction p as [|a p IH]; simpl; [reflexivity|].
  now rewrite Ascii.eqb_refl.
Qed.

Lemma is_metric_line_sample_line (name : string) (up : bool) :
  is_metric_line (sample_line name up) = true.
Proof.
  unfold is_metric_line, sample_line.
  rewrite <- (string_app_assoc "up{job=" dquote). apply startswith_app.
Qed.

(** With no newline inside a service name, the lines of the exposition
    are the parts it was made of. *)
Lemma split_lines_exposition (samples : list (string * bool)) (epoch : Z) :
  Forall (fun '(name, _) => no_newline name = true) samples ->
  split_lines (exposition samples epoch)
  = ("# HELP up Health check status (1 = up, 0 = down)"
       :: "# TYPE up gauge"
       :: map (fun '(name, up) => sample_line name up) samples
       ++ ["# Health checks completed at " +:+ str_int epoch; ""])%list.
Proof.
  intros Hnames. unfold exposition.
  rewrite split_lines_line by reflexivity.
  rewrite split_lines_line by reflexivity.
  do 2 f_equal.
  induction Hnames as [|[name up] samples Hname _ IH].
  - cbn [fold_right map app].
    rewrite <- string_app_assoc, split_lines_last; [reflexivity|].
    rewrite no_newline_app, no_newline_str_int. reflexivity.
  - cbn [fold_right map app].
    rewrite split_lines_line by (now rewrite no_newline_sample_line).
    now rewrite IH.
Qed.

Lemma metric_lines_exposition (samples : list (string * bool)) (epoch : Z) :
  Forall (fun '(name, _) => no_newline name = true) samples ->
  metric_lines (exposition samples epoch)
  = map (fun '(name, up) => sample_line name up) samples.
Proof.
  intros Hnames. unfold metric_lines.
  rewrite (split_lines_exposition samples epoch Hnames).
  cbn [List.filter]. change (is_metric_line "# HELP up Health check status (1 = up, 0 = down)") with false.
  change (is_metric_line "# TYPE up gauge") with false. cbv iota.
  clear Hnames. induction samples as [|[name up] samples IH].
  - reflexivity.
  - cbn [map app List.filter]. rewrite is_metric_line_sample_line.
    now rewrite IH.
Qed.

Lemma Forall_combine_names {V : Type} (P : string -> Prop)
    (items : list (string * V)) (ups : list bool) :
  Forall (fun '(name, _) => P name) items ->
  Forall (fun '(name, _) => P name) (combine (map fst items) ups).
Proof.
  intros H. revert ups.
  induction H as [|[name v] items Hname _ IH]; intros [|up ups]; simpl;
    constructor; auto.
Qed.

(** C3: the output of [generate_metrics] is, in this order, the HELP
    line, the TYPE line, one sample of [up] with the value 0 or 1 per registry
    entry in registry order with the name copied as it is, and the comment
    with the epoch at which the sweep completed; each part is followed by
    one newline, the output ends with exactly one, and every sample is a
    sample of [up].  When no name holds a newline, as in the registry of
    the source, these parts are the lines of the output. *)
Theorem generate_metrics_format (w : world) (s : state) :
  raises_only_Exception w ->
  exists (ups : list bool) (s' : state),
    let samples := combine (map fst (SERVICES s)) ups in
    let epoch := int_time w (outbound s') in
    List.length ups = List.length (SERVICES s)
    /\ generate_metrics w s = (Ret (exposition samples epoch), s')
    /\ (exists body c,
          exposition samples epoch = body +:+ String c nl /\ c <> "010"%char)
    /\ (Forall (fun '(name, _) => no_newline name = true) (SERVICES s) ->
        split_lines (exposition samples epoch)
        = ("# HELP up Health check status (1 = up, 0 = down)"
             :: "# TYPE up gauge"
             :: map (fun '(name, up) => sample_line name up) samples
             ++ ["# Health checks completed at " +:+ str_int epoch; ""])%list).
Proof.
  intros Hw.
  destruct (generate_metrics_run w s Hw) as (ups & s' & Hlen & _ & Hrun).
  exists ups, s'. cbv zeta.
  split; [exact Hlen|]. split; [exact Hrun|].
  split; [apply exposition_ends|].
  intros Hnames. apply split_lines_exposition.
  apply Forall_combine_names, Hnames.
Qed.

(** C4, for service names that hold no newline: the lines of the output
    that are samples of [up] are as many as the registry has entries, one
    per entry in registry order, each with the value 0 or 1; with an empty
    registry the output holds the HELP line, the TYPE line and the
    completion comment, and no sample. *)
Theorem metric_line_count (w : world) (s : state) :
  raises_only_Exception w ->
  Forall (fun '(name, _) => no_newline name = true) (SERVICES s) ->
  exists (out : string) (s' : state) (ups : list bool),
    generate_metrics w s = (Ret out, s')
    /\ List.length (metric_lines out) = List.length (SERVICES s)
    /\ List.length ups = List.length (SERVICES s)
    /\ metric_lines out
       = map (fun '(name, up) => sample_line name up)
           (combine (map fst (SERVICES s)) ups)
    /\ (SERVICES s = [] ->
        metric_lines out = []
        /\ split_lines out
           = ["# HELP up Health check status (1 = up, 0 = down)";
              "# TYPE up gauge";
              "# Health checks completed at "
                +:+ str_int (int_time w (outbound s'));
              ""]).
Proof.
  intros Hw Hnames.
  destruct (generate_metrics_run w s Hw) as (ups & s' & Hlen & _ & Hrun).
  pose proof (Forall_combine_names _ _ ups Hnames) as Hsamples.
  eexists _, s', ups. split; [exact Hrun|].
  rewrite (metric_lines_exposition _ _ Hsamples).
  split; [|split; [exact Hlen|split; [reflexivity|]]].
  - rewrite length_map, length_combine, length_map, Hlen. apply Nat.min_id.
  - intros Hempty. rewrite (split_lines_exposition _ _ Hsamples).
    rewrite Hempty. split; reflexivity.
Qed.

(** C4 does not hold for every registry: a name that holds a newline
    spreads its entry over two lines.  With a quote in the name these are
    two samples for one entry, the first with the value 7; without one the
    only line that starts a sample carries no value at all. *)
Lemma metric_line_count_newline_in_name :
  let w := answering 200 1700000000 in
  let s := MkState [(forged_name, rbac_config)] [] [] in
  let s2 := MkState [(two_line_name, rbac_config)] [] [] in
  raises_only_Exception w
  /\ (exists out s',
         generate_metrics w s = (Ret out, s')
         /\ List.length (SERVICES s) = 1%nat
         /\ metric_lines out
            = ["up{job=" +:+ dquote +:+ "a" +:+ dquote +:+ "} 7";
               "up{job=" +:+ dquote +:+ "b" +:+ dquote +:+ "} 1"])
  /\ (exists out s',
         generate_metrics w s2 = (Ret out, s')
         /\ List.length (SERVICES s2) = 1%nat
         /\ metric_lines out = ["up{job=" +:+ dquote +:+ "a"]).
Proof.
  split; [|split].
  - intros h r e H. discriminate H.
  - eexists _, _. split; [vm_compute; reflexivity|].
    split; reflexivity.
  - eexists _, _. split; [vm_compute; reflexivity|].
    split; reflexivity.
Qed.

Lemma metric_line_count_witness :
  let w := failing refused 1700000000 in
  let s := boot SERVICES_entries in
  exists (out : string) (s' : state) (ups : list bool),
    generate_metrics w s = (Ret out, s')
    /\ List.length (metric_lines out) = List.length (SERVICES s)
    /\ List.length ups = List.length (SERVICES s)
    /\ metric_lines out
       = map (fun '(name, up) => sample_line name up)
           (combine (map fst (SERVICES s)) ups)
    /\ (SERVICES s = [] ->
        metric_lines out = []
        /\ split_lines out
           = ["# HELP up Health check status (1 = up, 0 = down)";
              "# TYPE up gauge";
              "# Health checks completed at "
                +:+ str_int (int_time w (outbound s'));
              ""]).
Proof.
  apply (metric_line_count (failing refused 1700000000) (boot SERVICES_entries)).
  - intros h r e H. injection H as <-. reflexivity.
  - vm_compute. repeat constructor.
Defined.

(** ** The registry is only read *)

Lemma check_service_health_SERVICES (w : world) (name : string)
    (config : gmap string pyval) (s : state) :
  SERVICES (snd (check_service_health w name config s)) = SERVICES s.
Proof.
  unfold check_service_health. unfold_monad.
  destruct (dict_get config "method" (PyStr "GET")) as [m| |]; simpl;
    [|reflexivity..].
  destruct (String.eqb (upper m) "POST");
    (destruct (config !! "url"); simpl; [|reflexivity]);
    (destruct (config !! "timeout"); simpl; [|reflexivity]);
    match goal with |- context [respond w ?h ?r] =>
      destruct (respond w h r) as [resp|[[] [] [] msg]] end;
    try reflexivity;
    destruct ((200 <=? status_code resp) && (status_code resp <? 400));
    reflexivity.
Qed.

Lemma for_each_SERVICES {A B : Type} (body : B -> A -> M B) (xs : list A) :
  (forall acc x s, SERVICES (snd (body acc x s)) = SERVICES s) ->
  forall acc s, SERVICES (snd (for_each xs body acc s)) = SERVICES s.
Proof.
  intros Hbody. induction xs as [|x xs IH]; intros acc s; [reflexivity|].
  cbn [for_each]. unfold mbind, M_bind.
  specialize (Hbody acc x s).
  destruct (body acc x s) as [[acc'|e] s1]; simpl in *.
  - rewrite IH. exact Hbody.
  - exact Hbody.
Qed.

Lemma generate_metrics_SERVICES (w : world) (s : state) :
  SERVICES (snd (generate_metrics w s)) = SERVICES s.
Proof.
  unfold generate_metrics, services_items, time_time.
  unfold mbind at 1, M_bind at 1. unfold mbind at 1, M_bind at 1.
  match goal with |- context [for_each ?xs ?body ?acc s] =>
    pose proof (for_each_SERVICES body xs) as H;
    specialize (H ltac:(intros acc0 [n c] s0; unfold mbind, M_bind;
      pose proof (check_service_health_SERVICES w n c s0) as Hc;
      destruct (check_service_health w n c s0) as [[v|e] s1]; exact Hc) acc s);
    destruct (for_each xs body acc s) as [[lines|e] s1]
  end; exact H.
Qed.

Lemma do_GET_SERVICES (w : world) (path : string) (s : state) :
  SERVICES (snd (do_GET w path s)) = SERVICES s.
Proof.
  unfold do_GET.
  destruct (String.eqb path "/metrics").
  - unfold try_except, mbind, M_bind.
    pose proof (generate_metrics_SERVICES w s) as H.
    destruct (generate_metrics w s) as [[out|e] s1]; [exact H|].
    destruct (isinstance e Exception); exact H.
  - destruct (String.eqb path "/health" || String.eqb path "/healthz");
      reflexivity.
Qed.

Lemma handle_one_request_SERVICES (w : world) (command path : string)
    (s : state) :
  SERVICES (snd (handle_one_request w command path s)) = SERVICES s.
Proof.
  unfold handle_one_request.
  destruct (String.eqb command "GET"); [apply do_GET_SERVICES|reflexivity].
Qed.

(** ** The handler *)

(** C5: a GET of /health or of /healthz is answered 200 with the content
    type text/plain and the body OK followed by a newline, in every state
    and for every behaviour of the probed services, so also when it is
    asked again; no call to a probed service is made. *)
Theorem health_endpoint (w : world) (path : string) (s : state) :
  path = "/health" \/ path = "/healthz" ->
  fst (handle_one_request w "GET" path s)
  = Ret (Reply 200 [("Content-Type", "text/plain")] ("OK" +:+ nl))
  /\ fst (do_GET w path s)
     = Ret (Reply 200 [("Content-Type", "text/plain")] ("OK" +:+ nl))
  /\ outbound (snd (handle_one_request w "GET" path s)) = outbound s.
Proof.
  intros [-> | ->]; repeat split; reflexivity.
Qed.

Lemma health_endpoint_witness :
  fst (handle_one_request (failing refused 0) "GET" "/healthz"
         (boot SERVICES_entries))
  = Ret (Reply 200 [("Content-Type", "text/plain")] ("OK" +:+ nl))
  /\ fst (do_GET (failing refused 0) "/healthz" (boot SERVICES_entries))
     = Ret (Reply 200 [("Content-Type", "text/plain")] ("OK" +:+ nl))
  /\ outbound (snd (handle_one_request (failing refused 0) "GET" "/healthz"
                      (boot SERVICES_entries)))
     = outbound (boot SERVICES_entries).
Proof.
  apply (health_endpoint (failing refused 0) "/healthz" (boot SERVICES_entries)).
  right. reflexivity.
Defined.

(** C6, as the handler is written: a GET that reaches the handler with a
    path other than /metrics, /health and /healthz is answered 404 and
    makes no call to a probed service.  A request with another method,
    or one that the base class refuses, never reaches the handler: it
    makes no call either, and its answer is the base class's own. *)
Theorem unknown_request (w : world) (p : parse_result) (s : state) :
  ~ (exists path,
        p = Accepted "GET" path
        /\ (path = "/metrics" \/ path = "/health" \/ path = "/healthz")) ->
  (exists answer, fst (answer_request w p s) = Ret answer)
  /\ outbound (snd (answer_request w p s)) = outbound s
  /\ (forall path, p = Accepted "GET" path ->
                   fst (answer_request w p s)
                   = Ret (Some (ErrorReply 404 "Not Found")))
  /\ (forall answer, p = Refused answer ->
                     fst (answer_request w p s) = Ret answer).
Proof.
  intros Hother. destruct p as [command path|answer].
  - unfold answer_request, handle_one_request.
    destruct (String.eqb_spec command "GET") as [->|Hcmd].
    + unfold do_GET.
      destruct (String.eqb_spec path "/metrics") as [->|_];
        [exfalso; apply Hother; eauto|].
      destruct (String.eqb_spec path "/health") as [->|_];
        [exfalso; apply Hother; eauto|].
      destruct (String.eqb_spec path "/healthz") as [->|_];
        [exfalso; apply Hother; eauto 6|].
      split; [eexists; reflexivity|]. split; [reflexivity|].
      split; [reflexivity|]. intros answer H. discriminate H.
    + split; [eexists; reflexivity|]. split; [reflexivity|].
      split; [|intros answer H; discriminate H].
      intros path' H. injection H as H _. contradiction.
  - split; [eexists; reflexivity|]. split; [reflexivity|].
    split; [intros path H; discriminate H|].
    intros answer' H. injection H as <-. reflexivity.
Qed.

Lemma unknown_request_witness :
  (exists answer,
      fst (answer_request (answering 200 0) (Accepted "GET" "/foo")
             (boot SERVICES_entries)) = Ret answer)
  /\ outbound (snd (answer_request (answering 200 0) (Accepted "GET" "/foo")
                      (boot SERVICES_entries)))
     = outbound (boot SERVICES_entries)
  /\ (forall path, Accepted "GET" "/foo" = Accepted "GET" path ->
                   fst (answer_request (answering 200 0) (Accepted "GET" "/foo")
                          (boot SERVICES_entries))
                   = Ret (Some (ErrorReply 404 "Not Found")))
  /\ (forall answer, Accepted "GET" "/foo" = Refused answer ->
                     fst (answer_request (answering 200 0) (Accepted "GET" "/foo")
                            (boot SERVICES_entries)) = Ret answer).
Proof.
  apply (unknown_request (answering 200 0) (Accepted "GET" "/foo")
           (boot SERVICES_entries)).
  intros (path & Heq & [H|[H|H]]); injection Heq as <-; discriminate H.
Defined.

(** C6 does not hold for the other methods: a POST of /foo that the
    parser has accepted is answered 501 by the dispatch, not 404. *)
Lemma other_method_is_not_404 :
  ~ (exists path,
        Accepted "POST" "/foo" = Accepted "GET" path
        /\ (path = "/metrics" \/ path = "/health" \/ path = "/healthz"))
  /\ fst (answer_request (answering 200 0) (Accepted "POST" "/foo")
            (boot SERVICES_entries))
     = Ret (Some (ErrorReply 501 "Unsupported method ('POST')"))
  /\ reply_status (ErrorReply 501 "Unsupported method ('POST')") <> 404.
Proof.
  split; [|split].
  - intros (path & H & _). discriminate H.
  - reflexivity.
  - discriminate.
Qed.

(** ** Dict displays *)

Section DictDisplay.

Context {V : Type}.
Implicit Types (d items : list (string * V)) (k : string) (v : V).

Lemma setitem_fresh d k v :
  ~ In k (map fst d) -> setitem d k v = (d ++ [(k, v)])%list.
Proof.
  induction d as [|[k' v'] d IH]; intros Hk; [reflexivity|].
  simpl in *. destruct (String.eqb_spec k' k) as [->|_]; [tauto|].
  rewrite IH by tauto. reflexivity.
Qed.

Lemma setitem_keys d k v :
  In k (map fst d) -> map fst (setitem d k v) = map fst d.
Proof.
  induction d as [|[k' v'] d IH]; intros Hk; [destruct Hk|].
  simpl in *. destruct (String.eqb_spec k' k) as [->|Hne]; [reflexivity|].
  simpl. rewrite IH; [reflexivity|]. destruct Hk; [contradiction|assumption].
Qed.

Lemma setitem_NoDup d k v :
  NoDup (map fst d) -> NoDup (map fst (setitem d k v)).
Proof.
  intros Hd. destruct (in_dec String.string_dec k (map fst d)) as [Hin|Hout].
  - now rewrite setitem_keys.
  - rewrite setitem_fresh, map_app by assumption. simpl.
    apply NoDup_app. split; [assumption|]. split.
    + intros x Hx Hk. apply list_elem_of_In in Hx.
      apply list_elem_of_In in Hk. simpl in Hk.
      destruct Hk as [<-|[]]. contradiction.
    + repeat constructor. intros H. apply list_elem_of_In in H. destruct H.
Qed.

Lemma dict_lookup_setitem d k v k' :
  dict_lookup (setitem d k v) k'
  = if String.eqb k k' then Some v else dict_lookup d k'.
Proof.
  induction d as [|[k0 v0] d IH]; simpl.
  - reflexivity.
  - destruct (String.eqb_spec k0 k) as [->|Hne]; simpl.
    + destruct (String.eqb k k'); reflexivity.
    + rewrite IH. destruct (String.eqb_spec k0 k') as [->|_]; [|reflexivity].
      destruct (String.eqb_spec k k'); [congruence|reflexivity].
Qed.

Lemma dict_lookup_app d1 d2 k :
  dict_lookup (d1 ++ d2)%list k
  = match dict_lookup d1 k with
    | Some v => Some v
    | None => dict_lookup d2 k
    end.
Proof.
  induction d1 as [|[k0 v0] d1 IH]; simpl; [reflexivity|].
  destruct (String.eqb k0 k); [reflexivity|exact IH].
Qed.

Lemma display_NoDup items d :
  NoDup (map fst d) -> NoDup (map fst (fold_left display_step items d)).
Proof.
  revert d. induction items as [|[k v] items IH]; intros d Hd; [exact Hd|].
  cbn [fold_left]. apply IH. apply setitem_NoDup, Hd.
Qed.

Lemma display_lookup items d k :
  dict_lookup (fold_left display_step items d) k
  = match dict_lookup (rev items) k with
    | Some v => Some v
    | None => dict_lookup d k
    end.
Proof.
  revert d. induction items as [|[k0 v0] items IH]; intros d; [reflexivity|].
  cbn [fold_left rev]. change (display_step d (k0, v0)) with (setitem d k0 v0).
  rewrite IH, dict_lookup_app, dict_lookup_setitem. simpl.
  destruct (dict_lookup (rev items) k); [reflexivity|].
  destruct (String.eqb k0 k); reflexivity.
Qed.

Lemma display_distinct items d :
  NoDup (map fst items) ->
  (forall k, In k (map fst items) -> ~ In k (map fst d)) ->
  fold_left display_step items d = (d ++ items)%list.
Proof.
  revert d. induction items as [|[k v] items IH]; intros d Hnd Hfresh.
  - now rewrite app_nil_r.
  - simpl in Hnd, Hfresh. apply NoDup_cons in Hnd as [Hk Hnd].
    rewrite list_elem_of_In in Hk.
    cbn [fold_left]. change (display_step d (k, v)) with (setitem d k v).
    rewrite setitem_fresh by (apply Hfresh; auto).
    rewrite IH; [now rewrite <- app_assoc| assumption |].
    intros k' Hk'. rewrite map_app, in_app_iff. simpl.
    intros [H|[<-|[]]]; [|contradiction].
    apply (Hfresh k'); auto.
Qed.

End DictDisplay.

(** ** Order of a dict display *)

Section DictOrder.

Context {V : Type}.
Implicit Types (d items : list (string * V)) (k : string) (v : V).

Lemma existsb_eqb_In k (seen : list string) :
  existsb (String.eqb k) seen = true <-> In k seen.
Proof.
  rewrite existsb_exists. split.
  - intros (x & Hx & Heq). apply String.eqb_eq in Heq. now subst x.
  - intros Hk. exists k. split; [assumption|apply String.eqb_refl].
Qed.

Lemma display_keys items d :
  map fst (fold_left display_step items d)
  = (map fst d ++ distinct_from (map fst d) (map fst items))%list.
Proof.
  revert d. induction items as [|[k v] items IH]; intros d.
  - simpl. now rewrite app_nil_r.
  - cbn [fold_left map fst distinct_from].
    change (display_step d (k, v)) with (setitem d k v). rewrite IH.
    destruct (existsb (String.eqb k) (map fst d)) eqn:Hseen.
    + apply existsb_eqb_In in Hseen. now rewrite setitem_keys.
    + assert (Hfresh : ~ In k (map fst d)).
      { intros Hin. apply existsb_eqb_In in Hin. congruence. }
      rewrite setitem_fresh, map_app by assumption. simpl.
      now rewrite <- app_assoc.
Qed.

Lemma omap_ext_In {A B : Type} (f g : A -> option B) (l : list A) :
  (forall x, In x l -> f x = g x) -> omap f l = omap g l.
Proof.
  induction l as [|x l IH]; intros H; [reflexivity|].
  change (omap f (x :: l))
    with (match f x with Some y => y :: omap f l | None => omap f l end).
  change (omap g (x :: l))
    with (match g x with Some y => y :: omap g l | None => omap g l end).
  rewrite (H x) by (left; reflexivity).
  rewrite IH by (intros y Hy; apply H; right; exact Hy). reflexivity.
Qed.

(** A dict is its keys, in order, each with the value found under it. *)
Lemma dict_rebuild d :
  NoDup (map fst d) ->
  omap (fun k => pair k <$> dict_lookup d k) (map fst d) = d.
Proof.
  induction d as [|[k v] d IH]; intros Hnd; [reflexivity|].
  cbn [map fst] in *. apply NoDup_cons in Hnd as [Hk Hnd].
  change (omap ?f (k :: map fst d))
    with (match f k with Some y => y :: omap f (map fst d)
                       | None => omap f (map fst d) end).
  cbn [dict_lookup]. rewrite String.eqb_refl.
  cbn [fmap option_fmap option_map]. f_equal.
  transitivity (omap (fun k0 => pair k0 <$> dict_lookup d k0) (map fst d));
    [|apply (IH Hnd)].
  apply omap_ext_In. intros k' Hk'. cbn [dict_lookup].
  destruct (String.eqb_spec k k') as [->|_]; [|reflexivity].
  exfalso. apply Hk. apply list_elem_of_In. exact Hk'.
Qed.

(** A dict display holds the keys in the order of their first occurrence,
    each with the value of its last. *)
Lemma dict_display_exact items :
  dict_display items
  = omap (fun k => pair k <$> dict_lookup (rev items) k)
      (first_occurrences (map fst items)).
Proof.
  unfold dict_display, first_occurrences.
  rewrite <- (dict_rebuild (fold_left display_step items []))
    by (apply display_NoDup; constructor).
  rewrite display_keys. cbn [map app].
  apply omap_ext_In. intros k _. rewrite display_lookup.
  destruct (dict_lookup (rev items) k); reflexivity.
Qed.

End DictOrder.

(** ** Construction of the registry *)

(** C7, as the module is written: loading never fails and validates
    nothing.  The registry is the dict display of its entries: it holds
    each name once, at the position where the name first occurs, with the
    configuration of the last entry under that name, so that entries with
    distinct names are kept as written, in their order; urls are not
    looked at.  Handling a request leaves the registry as it was. *)
Theorem registry_construction (entries : list (string * gmap string pyval)) :
  exists s,
    load_module entries = Ret s
    /\ SERVICES s
       = omap (fun name => pair name <$> dict_lookup (rev entries) name)
           (first_occurrences (map fst entries))
    /\ map fst (SERVICES s) = first_occurrences (map fst entries)
    /\ NoDup (map fst (SERVICES s))
    /\ (forall name,
           dict_lookup (SERVICES s) name = dict_lookup (rev entries) name)
    /\ (NoDup (map fst entries) -> SERVICES s = entries)
    /\ (forall w command path,
           SERVICES (snd (handle_one_request w command path s)) = SERVICES s)
    /\ (forall w p, SERVICES (snd (answer_request w p s)) = SERVICES s).
Proof.
  exists (MkState (dict_display entries) [] []).
  split; [reflexivity|]. cbn [SERVICES].
  split; [apply dict_display_exact|].
  unfold dict_display.
  split; [rewrite display_keys; reflexivity|].
  split; [apply display_NoDup; constructor|].
  split; [|split; [|split]].
  - intros name. rewrite display_lookup.
    destruct (dict_lookup (rev entries) name); reflexivity.
  - intros Hnd. apply (display_distinct entries [] Hnd).
    intros k _ [].
  - intros w command path. apply handle_one_request_SERVICES.
  - intros w [command path|answer]; [|reflexivity].
    unfold answer_request, mbind, M_bind.
    pose proof (handle_one_request_SERVICES w command path
                  (MkState (fold_left display_step entries []) [] [])) as H.
    destruct (handle_one_request w command path
                (MkState (fold_left display_step entries []) [] []))
      as [[r|e] s1]; exact H.
Qed.

(** C7 does not hold as stated: two entries under one name load, the
    second replacing the first at the place of the first, and so do
    entries whose url is malformed or missing. *)
Lemma duplicate_names_and_bad_urls_load :
  ~ NoDup (map fst duplicate_entries)
  /\ load_module duplicate_entries
     = Ret (MkState [("rbac", relations_config)] [] [])
  /\ load_module repeated_entries
     = Ret (MkState [("rbac", relations_config);
                     ("inventory-api", inventory_config)] [] [])
  /\ load_module malformed_entries = Ret (MkState malformed_entries [] []).
Proof.
  split; [|split; [|split]].
  - intros H. apply NoDup_cons in H as [H _]. apply H. simpl. left.
  - reflexivity.
  - reflexivity.
  - reflexivity.
Qed.

(** ** Instances *)

Lemma check_service_health_never_raises_witness :
  exists v s',
    check_service_health (failing refused 0) "rbac" rbac_config
      (boot SERVICES_entries) = (Ret v, s')
    /\ (v = 0 \/ v = 1).
Proof.
  apply (check_service_health_never_raises (failing refused 0) "rbac"
           rbac_config (boot SERVICES_entries)).
  intros h r e H. injection H as <-. reflexivity.
Defined.

Lemma status_code_classification_witness :
  fst (check_service_health (answering 204 0) "rbac" rbac_config
         (boot SERVICES_entries)) = Ret 1
  <-> 200 <= 204 < 400.
Proof.
  apply (status_code_classification (answering 204 0) "rbac" rbac_config
           (boot SERVICES_entries)
           (MkRequest GET (PyStr "http://insights-rbac:8080/api/rbac/v1/status/")
              None [] (PyInt 5) true)
           (MkResponse 204)).
  - vm_compute. reflexivity.
  - reflexivity.
Defined.

Lemma generate_metrics_format_witness :
  let w := answering 200 1700000000 in
  let s := boot SERVICES_entries in
  exists (ups : list bool) (s' : state),
    let samples := combine (map fst (SERVICES s)) ups in
    let epoch := int_time w (outbound s') in
    List.length ups = List.length (SERVICES s)
    /\ generate_metrics w s = (Ret (exposition samples epoch), s')
    /\ (exists body c,
          exposition samples epoch = body +:+ String c nl /\ c <> "010"%char)
    /\ (Forall (fun '(name, _) => no_newline name = true) (SERVICES s) ->
        split_lines (exposition samples epoch)
        = ("# HELP up Health check status (1 = up, 0 = down)"
             :: "# TYPE up gauge"
             :: map (fun '(name, up) => sample_line name up) samples
             ++ ["# Health checks completed at " +:+ str_int epoch; ""])%list).
Proof.
  apply (generate_metrics_format (answering 200 1700000000)
           (boot SERVICES_entries)).
  intros h r e H. discriminate H.
Defined.

Lemma timeout_and_connection_error_witness :
  fst (check_service_health (failing read_timeout 0) "relations-api"
         relations_config (boot SERVICES_entries)) = Ret 0
  /\ logs (snd (check_service_health (failing read_timeout 0) "relations-api"
                  relations_config (boot SERVICES_entries)))
     = [MkLog WARNING "relations-api: TIMEOUT"].
Proof.
  pose proof (timeout_and_connection_error (failing read_timeout 0)
                "relations-api" relations_config (boot SERVICES_entries)
                (MkRequest POST
                   (PyStr "http://kessel-relations-api:8000/api/authz/v1beta1/tuples")
                   (Some (PyStr ("{" +:+ dquote +:+ "tuples" +:+ dquote +:+ ":[]}")))
                   [("Content-Type", "application/json")] (PyInt 5) true)) as H.
  cbv zeta in H.
  destruct H as [H _]; [vm_compute; reflexivity|].
  apply (H read_timeout); reflexivity.
Defined.

Lemma request_construction_witness :
  outbound (snd (check_service_health (answering 200 0) "relations-api"
                   relations_config (boot SERVICES_entries)))
  = [MkRequest POST
       (PyStr "http://kessel-relations-api:8000/api/authz/v1beta1/tuples")
       (Some (PyStr ("{" +:+ dquote +:+ "tuples" +:+ dquote +:+ ":[]}")))
       [("Content-Type", "application/json")] (PyInt 5) true].
Proof.
  pose proof (request_construction (answering 200 0) "relations-api"
                relations_config (boot SERVICES_entries)
                (PyStr "http://kessel-relations-api:8000/api/authz/v1beta1/tuples")
                (PyInt 5)) as H.
  cbv zeta in H.
  destruct H as [H _]; [vm_compute; reflexivity | vm_compute; reflexivity |].
  destruct H as [H _]; [vm_compute; reflexivity|].
  apply H. vm_compute. reflexivity.
Defined.

Lemma method_field_dispatch_witness :
  outbound (snd (check_service_health_with upper_with_long_s (answering 200 0)
                   "rbac" (<["method" := PyStr long_s_post]> rbac_config)
                   (boot SERVICES_entries)))
  = [MkRequest POST (PyStr "http://insights-rbac:8080/api/rbac/v1/status/")
       (Some (PyStr "")) [("Content-Type", "application/json")]
       (PyInt 5) true].
Proof.
  pose proof (method_field_dispatch upper_with_long_s (answering 200 0) "rbac"
                (<["method" := PyStr long_s_post]> rbac_config)
                (boot SERVICES_entries)
                (PyStr "http://insights-rbac:8080/api/rbac/v1/status/")
                (PyInt 5)) as H.
  cbv zeta in H.
  destruct H as (_ & H & _).
  - intros m Hm. unfold upper_with_long_s.
    destruct (String.eqb_spec m long_s_post) as [->|_]; [|reflexivity].
    vm_compute in Hm. discriminate Hm.
  - vm_compute. reflexivity.
  - vm_compute. reflexivity.
  - apply (H long_s_post); vm_compute; reflexivity.
Defined.

(** ** Scenarios *)

(** A service that answers 200 within its timeout. *)
Example scenario_up :
  let run := check_service_health (answering 200 0) "inventory-api"
               inventory_config (boot SERVICES_entries) in
  fst run = Ret 1
  /\ sample_line "inventory-api" true
     = "up{job=" +:+ dquote +:+ "inventory-api" +:+ dquote +:+ "} 1"
  /\ logs (snd run) = [MkLog DEBUG "inventory-api: UP (status 200)"].
Proof.
  repeat split; vm_compute; reflexivity.
Qed.

(** A service that refuses the connection. *)
Example scenario_connection_refused :
  let run := check_service_health (failing refused 0) "rbac" rbac_config
               (boot SERVICES_entries) in
  fst run = Ret 0
  /\ logs (snd run) = [MkLog WARNING "rbac: CONNECTION_ERROR"].
Proof.
  repeat split; vm_compute; reflexivity.
Qed.

(** A service that takes longer than its timeout; a connect timeout, which
    is a connection error too, is reported as a timeout. *)
Example scenario_timeout :
  let run := check_service_health (failing read_timeout 0) "relations-api"
               relations_config (boot SERVICES_entries) in
  let run' := check_service_health (failing connect_timeout 0) "relations-api"
                relations_config (boot SERVICES_entries) in
  fst run = Ret 0
  /\ logs (snd run) = [MkLog WARNING "relations-api: TIMEOUT"]
  /\ fst run' = Ret 0
  /\ logs (snd run') = [MkLog WARNING "relations-api: TIMEOUT"].
Proof.
  repeat split; vm_compute; reflexivity.
Qed.

(** A method the probe does not know is probed with GET. *)
Example scenario_unknown_method :
  outbound (snd (check_service_health (answering 200 0) "rbac"
                   (<["method" := PyStr "PUT"]> rbac_config)
                   (boot SERVICES_entries)))
  = [MkRequest GET (PyStr "http://insights-rbac:8080/api/rbac/v1/status/")
       None [] (PyInt 5) true].
Proof.
  vm_compute. reflexivity.
Qed.

(** A configuration without a url: the [KeyError] becomes a down result. *)
Example scenario_missing_url :
  let run := check_service_health (answering 200 0) "rbac"
               {[ "timeout" := PyInt 5 ]} (boot SERVICES_entries) in
  fst run = Ret 0
  /\ outbound (snd run) = []
  /\ logs (snd run) = [MkLog ERROR "rbac: ERROR - 'url'"].
Proof.
  repeat split; vm_compute; reflexivity.
Qed.

(** A sweep of the shipped registry with every service up. *)
Example scenario_sweep :
  fst (generate_metrics (answering 200 1700000000) (boot SERVICES_entries))
  = Ret ("# HELP up Health check status (1 = up, 0 = down)" +:+ nl
           +:+ "# TYPE up gauge" +:+ nl
           +:+ "up{job=" +:+ dquote +:+ "relations-api" +:+ dquote +:+ "} 1" +:+ nl
           +:+ "up{job=" +:+ dquote +:+ "inventory-api" +:+ dquote +:+ "} 1" +:+ nl
           +:+ "up{job=" +:+ dquote +:+ "rbac" +:+ dquote +:+ "} 1" +:+ nl
           +:+ "up{job=" +:+ dquote +:+ "host-inventory" +:+ dquote +:+ "} 1" +:+ nl
           +:+ "# Health checks completed at 1700000000" +:+ nl).
Proof.
  vm_compute. reflexivity.
Qed.

(** The empty registry. *)
Example scenario_empty_registry :
  fst (generate_metrics (answering 200 1700000000) (MkState [] [] []))
  = Ret ("# HELP up Health check status (1 = up, 0 = down)" +:+ nl
           +:+ "# TYPE up gauge" +:+ nl
           +:+ "# Health checks completed at 1700000000" +:+ nl).
Proof.
  vm_compute. reflexivity.
Qed.

(** A signal that is no [Exception] is not caught by the probe. *)
Example scenario_interrupt :
  let interrupt := MkExn false false false "" in
  fst (check_service_health (failing interrupt 0) "rbac" rbac_config
         (boot SERVICES_entries)) = Raise interrupt.
Proof.
  vm_compute. reflexivity.
Qed.

(** The registry of the source: loaded as written, with distinct names
    that hold no newline. *)
Example scenario_shipped_registry :
  load_module SERVICES_entries = Ret (MkState SERVICES_entries [] [])
  /\ NoDup (map fst SERVICES_entries)
  /\ Forall (fun '(name, _) => no_newline name = true) SERVICES_entries.
Proof.
  split; [reflexivity|]. split.
  - apply (bool_decide_unpack (NoDup (map fst SERVICES_entries))).
    vm_compute. exact I.
  - repeat constructor.
Qed.

(** * Further properties *)

(** ** One probe *)

Lemma probe_request_Some (w : world) (name : string)
    (config : gmap string pyval) (s : state) (r : request) :
  probe_request config = Some r ->
  outbound (snd (check_service_health w name config s))
  = (outbound s ++ [r])%list.
Proof.
  unfold probe_request. intros Hr.
  destruct (dict_get config "method" (PyStr "GET")) as [m| |] eqn:Hm;
    try discriminate Hr.
  destruct (config !! "url") as [u|] eqn:Hu; try discriminate Hr.
  destruct (config !! "timeout") as [t|] eqn:Ht; try discriminate Hr.
  injection Hr as <-.
  apply (check_service_health_request w name config s m u t Hm Hu Ht).
Qed.

Lemma probe_request_None (w : world) (name : string)
    (config : gmap string pyval) (s : state) :
  probe_request config = None ->
  let run := check_service_health w name config s in
  fst run = Ret 0
  /\ outbound (snd run) = outbound s
  /\ exists msg,
       logs (snd run)
       = (logs s ++ [MkLog ERROR (name +:+ ": ERROR - " +:+ msg)])%list.
Proof.
  intros Hnone run.
  destruct (check_service_health_cases w name config s)
    as [(Hout & Hv & Hlog)|(m & u & t & Hm & Hu & Ht & _)].
  - auto.
  - unfold probe_request in Hnone. rewrite Hm, Hu, Ht in Hnone.
    discriminate Hnone.
Qed.

Lemma check_service_health_outbound (w : world) (name : string)
    (config : gmap string pyval) (s : state) :
  outbound (snd (check_service_health w name config s))
  = (outbound s ++ option_list (probe_request config))%list.
Proof.
  destruct (probe_request config) as [r|] eqn:Hr; simpl.
  - apply (probe_request_Some w name config s r Hr).
  - rewrite app_nil_r.
    apply (probe_request_None w name config s Hr).
Qed.


(** X2: a probe that returns has logged exactly one record, whose level
    tells the result: DEBUG for 1, WARNING or ERROR for 0, and whose text
    starts with the service name; a probe that lets a signal escape has
    logged nothing. *)
Theorem probe_logs_one_record (w : world) (name : string)
    (config : gmap string pyval) (s : state) :
  let run := check_service_health w name config s in
  (exists v l text,
      fst run = Ret v
      /\ logs (snd run) = (logs s ++ [MkLog l (name +:+ ": " +:+ text)])%list
      /\ (v = 1 /\ l = DEBUG \/ v = 0 /\ (l = WARNING \/ l = ERROR)))
  \/ (exists e, fst run = Raise e /\ logs (snd run) = logs s).
Proof.
  intros run.
  destruct (probe_request config) as [r|] eqn:Hr.
  - pose proof (check_service_health_called w name config s r
                  (probe_request_Some w name config s r Hr)) as H.
    cbv zeta in H. fold run in H.
    destruct (respond w (outbound s) r) as [resp|e].
    + destruct ((200 <=? status_code resp) && (status_code resp <? 400));
        rewrite H; left.
      * exists 1, DEBUG, ("UP (status " +:+ str_int (status_code resp) +:+ ")").
        cbn [fst snd logs]. split; [reflexivity|].
        split; [reflexivity|]. left. auto.
      * exists 0, WARNING,
          ("DOWN (status " +:+ str_int (status_code resp) +:+ ")").
        cbn [fst snd logs]. split; [reflexivity|].
        split; [reflexivity|]. right. auto.
    + destruct (isinstance e Timeout);
        [|destruct (isinstance e ConnectionError);
          [|destruct (isinstance e Exception)]]; rewrite H.
      * left. exists 0, WARNING, "TIMEOUT". cbn [fst snd logs].
        split; [reflexivity|]. split; [reflexivity|]. right. auto.
      * left. exists 0, WARNING, "CONNECTION_ERROR". cbn [fst snd logs].
        split; [reflexivity|]. split; [reflexivity|]. right. auto.
      * left. exists 0, ERROR, ("ERROR - " +:+ exn_str e). cbn [fst snd logs].
        split; [reflexivity|]. split; [reflexivity|]. right. auto.
      * right. exists e. split; reflexivity.
  - destruct (probe_request_None w name config s Hr) as (Hv & _ & msg & Hlog).
    fold run in Hv, Hlog. left.
    exists 0, ERROR, ("ERROR - " +:+ msg). split; [exact Hv|].
    split; [exact Hlog|]. right. auto.
Qed.

(** X3: with a method that is a string or absent, a configuration
    without a url is reported down with the error record naming [url],
    and one with a url but without a timeout with the record naming
    [timeout]; in both cases no call is made and nothing is raised. *)
Theorem missing_key_is_down (w : world) (name : string)
    (config : gmap string pyval) (s : state) (m : string) :
  dict_get config "method" (PyStr "GET") = PyStr m ->
  let run := check_service_health w name config s in
  let down key :=
    (Ret 0, MkState (SERVICES s) (outbound s)
              (logs s ++ [MkLog ERROR (name +:+ ": ERROR - '" +:+ key +:+ "'")])%list) in
  (config !! "url" = None -> run = down "url")
  /\ (forall u, config !! "url" = Some u -> config !! "timeout" = None ->
                run = down "timeout").
Proof.
  intros Hm run down. subst run down. unfold check_service_health.
  rewrite Hm. unfold_monad. simpl. split.
  - intros Hu. rewrite Hu.
    destruct (String.eqb (upper m) "POST"); reflexivity.
  - intros u Hu Ht. rewrite Hu, Ht.
    destruct (String.eqb (upper m) "POST"); reflexivity.
Qed.

Lemma missing_key_is_down_witness :
  check_service_health (answering 200 0) "inventory-api"
    {[ "timeout" := PyInt 5 ]} (boot SERVICES_entries)
  = (Ret 0, MkState (SERVICES (boot SERVICES_entries)) []
              [MkLog ERROR "inventory-api: ERROR - 'url'"]).
Proof.
  pose proof (missing_key_is_down (answering 200 0) "inventory-api"
                {[ "timeout" := PyInt 5 ]} (boot SERVICES_entries) "GET") as H.
  cbv zeta in H.
  destruct H as [H _]; [vm_compute; reflexivity|].
  apply H. vm_compute. reflexivity.
Defined.

(** X4: a method field that holds something other than a string makes the
    probe report down with the error record of the failed [upper], without
    a call, whatever the url and the timeout are. *)
Theorem method_not_a_string_is_down (w : world) (name : string)
    (config : gmap string pyval) (s : state) (v : pyval) :
  config !! "method" = Some v ->
  (forall m, v <> PyStr m) ->
  check_service_health w name config s
  = (Ret 0, MkState (SERVICES s) (outbound s)
              (logs s ++ [MkLog ERROR
                            (name +:+ ": ERROR - '" +:+ type_name v
                               +:+ "' object has no attribute 'upper'")])%list).
Proof.
  intros Hv Hstr. unfold check_service_health, dict_get. rewrite Hv.
  unfold_monad. destruct v as [m| |]; [destruct (Hstr m eq_refl)| |];
    reflexivity.
Qed.

Lemma method_not_a_string_is_down_witness :
  check_service_health (answering 200 0) "rbac"
    (<["method" := PyNone]> rbac_config) (boot SERVICES_entries)
  = (Ret 0, MkState (SERVICES (boot SERVICES_entries)) []
              [MkLog ERROR
                 "rbac: ERROR - 'NoneType' object has no attribute 'upper'"]).
Proof.
  apply (method_not_a_string_is_down (answering 200 0) "rbac"
           (<["method" := PyNone]> rbac_config) (boot SERVICES_entries) PyNone).
  - vm_compute. reflexivity.
  - intros m H. discriminate H.
Defined.

Lemma check_service_health_escape (w : world) (name : string)
    (config : gmap string pyval) (s : state) (e : exn) :
  let run := check_service_health w name config s in
  fst run = Raise e ->
  isinstance e Timeout = false
  /\ isinstance e ConnectionError = false
  /\ isinstance e Exception = false
  /\ logs (snd run) = logs s
  /\ exists r, probe_request config = Some r
               /\ respond w (outbound s) r = Failed e.
Proof.
  intros run Hraise.
  destruct (probe_request config) as [r|] eqn:Hr.
  - pose proof (check_service_health_called w name config s r
                  (probe_request_Some w name config s r Hr)) as H.
    cbv zeta in H. fold run in H.
    destruct (respond w (outbound s) r) as [resp|e0] eqn:Hresp.
    + destruct ((200 <=? status_code resp) && (status_code resp <? 400));
        rewrite H in Hraise; discriminate Hraise.
    + destruct (isinstance e0 Timeout) eqn:Ht;
        [rewrite H in Hraise; discriminate Hraise|].
      destruct (isinstance e0 ConnectionError) eqn:Hc;
        [rewrite H in Hraise; discriminate Hraise|].
      destruct (isinstance e0 Exception) eqn:Hx;
        [rewrite H in Hraise; discriminate Hraise|].
      rewrite H in Hraise. injection Hraise as <-.
      rewrite H. repeat split; auto. exists r. auto.
  - destruct (probe_request_None w name config s Hr) as (Hv & _).
    fold run in Hv. rewrite Hv in Hraise. discriminate Hraise.
Qed.



(** ** One sweep *)

Lemma probe_results_cons (w : world) (h : list request)
    (config : gmap string pyval) (configs : list (gmap string pyval)) :
  probe_results w h (config :: configs)
  = match probe_request config with
    | Some r => verdict (respond w h r)
    | None => false
    end
    :: probe_results w (h ++ option_list (probe_request config))%list configs.
Proof.
  simpl. destruct (probe_request config); simpl; [reflexivity|].
  now rewrite app_nil_r.
Qed.

Lemma probe_calls_cons (config : gmap string pyval)
    (configs : list (gmap string pyval)) :
  probe_calls (config :: configs)
  = (option_list (probe_request config) ++ probe_calls configs)%list.
Proof.
  unfold probe_calls. simpl. destruct (probe_request config); reflexivity.
Qed.

(** On a network that raises only instances of [Exception], the result
    of a probe is the verdict on the outcome of its call. *)
Lemma check_service_health_verdict (w : world) (name : string)
    (config : gmap string pyval) (s : state) :
  raises_only_Exception w ->
  let run := check_service_health w name config s in
  fst run = Ret (if match probe_request config with
                    | Some r => verdict (respond w (outbound s) r)
                    | None => false
                    end then 1 else 0)
  /\ exists record, logs (snd run) = (logs s ++ [record])%list.
Proof.
  intros Hw run.
  destruct (probe_request config) as [r|] eqn:Hr.
  - pose proof (check_service_health_called w name config s r
                  (probe_request_Some w name config s r Hr)) as H.
    cbv zeta in H. fold run in H.
    pose proof (Hw (outbound s) r) as He.
    destruct (respond w (outbound s) r) as [resp|e]; cbn [verdict].
    + destruct ((200 <=? status_code resp) && (status_code resp <? 400));
        rewrite H; split; eauto.
    + specialize (He e eq_refl).
      destruct (isinstance e Timeout);
        [|destruct (isinstance e ConnectionError);
          [|destruct (isinstance e Exception); [|discriminate He]]];
        rewrite H; split; eauto.
  - destruct (probe_request_None w name config s Hr) as (Hv & _ & msg & Hlog).
    split; eauto.
Qed.

Lemma sweep_exact (w : world) (items : list (string * gmap string pyval)) :
  raises_only_Exception w ->
  forall (metrics : list string) (s : state),
  exists s',
    for_each items
      (fun metrics '(service_name, config) =>
         status ← check_service_health w service_name config;
         mret (metrics ++ ["up{job=" +:+ dquote +:+ service_name +:+ dquote
                             +:+ "} " +:+ str_int status])%list)
      metrics s
    = (Ret (metrics
              ++ map (fun '(name, up) => sample_line name up)
                   (combine (map fst items)
                      (probe_results w (outbound s) (map snd items))))%list,
       s')
    /\ outbound s' = (outbound s ++ probe_calls (map snd items))%list
    /\ SERVICES s' = SERVICES s
    /\ List.length (logs s') = (List.length (logs s) + List.length items)%nat.
Proof.
  intros Hw. induction items as [|[name config] items IH]; intros metrics s.
  - exists s. cbn [for_each map combine probe_calls omap app List.length].
    rewrite !app_nil_r, Nat.add_0_r. auto.
  - destruct (check_service_health_verdict w name config s Hw)
      as (Hv & record & Hlog).
    pose proof (check_service_health_outbound w name config s) as Hout.
    pose proof (check_service_health_SERVICES w name config s) as Hsvc.
    destruct (check_service_health w name config s) as [res s1] eqn:Hrun.
    cbn [fst snd] in Hv, Hlog, Hout, Hsvc. subst res.
    set (up := match probe_request config with
               | Some r => verdict (respond w (outbound s) r)
               | None => false
               end) in *.
    destruct (IH (metrics ++ ["up{job=" +:+ dquote +:+ name +:+ dquote
                                +:+ "} " +:+ str_int (if up then 1 else 0)])%list
                s1) as (s' & Hloop & Hout' & Hsvc' & Hlog').
    exists s'. split; [|split; [|split]].
    + change (for_each ((name, config) :: items) ?body metrics s)
        with ((body metrics (name, config)
                 ≫= fun acc' => for_each items body acc') s).
      erewrite bind_run
        by (cbv beta iota; erewrite bind_run by exact Hrun; reflexivity).
      rewrite Hloop, <- app_assoc.
      cbn [map fst snd]. rewrite probe_results_cons. fold up.
      rewrite <- Hout. cbn [combine map app]. do 3 f_equal.
      unfold sample_line. destruct up; reflexivity.
    + cbn [map snd]. rewrite probe_calls_cons, Hout', Hout, <- app_assoc.
      reflexivity.
    + congruence.
    + rewrite Hlog', Hlog, length_app. simpl. lia.
Qed.

Lemma join_lines_exposition (samples : list (string * bool)) (epoch : Z) :
  join nl ((["# HELP up Health check status (1 = up, 0 = down)";
             "# TYPE up gauge"]
              ++ map (fun '(name, up) => sample_line name up) samples)
             ++ ["# Health checks completed at " +:+ str_int epoch])%list
    +:+ nl
  = exposition samples epoch.
Proof.
  rewrite join_snoc, string_app_assoc. unfold exposition.
  cbn [app fold_right]. do 4 f_equal.
  induction samples as [|[name up] samples IH]; [reflexivity|].
  cbn [map fold_right]. now rewrite IH.
Qed.

Lemma generate_metrics_exact (w : world) (s : state) :
  raises_only_Exception w ->
  exists s',
    generate_metrics w s
    = (Ret (exposition
              (combine (map fst (SERVICES s))
                 (probe_results w (outbound s) (map snd (SERVICES s))))
              (int_time w (outbound s'))), s')
    /\ outbound s' = (outbound s ++ probe_calls (map snd (SERVICES s)))%list
    /\ SERVICES s' = SERVICES s
    /\ List.length (logs s')
       = (List.length (logs s) + List.length (SERVICES s))%nat.
Proof.
  intros Hw.
  destruct (sweep_exact w (SERVICES s) Hw
              ["# HELP up Health check status (1 = up, 0 = down)";
               "# TYPE up gauge"] s)
    as (s' & Hloop & Hout & Hsvc & Hlog).
  exists s'. split; [|auto].
  unfold generate_metrics.
  erewrite bind_run by reflexivity.
  erewrite bind_run by exact Hloop.
  erewrite bind_run by reflexivity.
  unfold mret, M_ret. now rewrite join_lines_exposition.
Qed.







(** ** The metrics endpoint *)



(** ** Whatever the network does *)

Lemma bind_raise {A B : Type} (c : M A) (f : A -> M B) (s s1 : state)
    (e : exn) :
  c s = (Raise e, s1) -> (c ≫= f) s = (Raise e, s1).
Proof.
  intros H. unfold mbind, M_bind. now rewrite H.
Qed.




Lemma for_each_escape (w : world)
    (items : list (string * gmap string pyval)) (e : exn) :
  forall (metrics : list string) (s : state),
    fst (for_each items
      (fun metrics '(service_name, config) =>
         status ← check_service_health w service_name config;
         mret (metrics ++ ["up{job=" +:+ dquote +:+ service_name +:+ dquote
                             +:+ "} " +:+ str_int status])%list)
      metrics s) = Raise e ->
    isinstance e Exception = false.
Proof.
  induction items as [|[name config] items IH]; intros metrics s.
  - intros H. discriminate H.
  - pose proof (check_service_health_escape w name config s) as Hesc.
    cbv zeta in Hesc.
    change (for_each ((name, config) :: items) ?body metrics s)
      with ((body metrics (name, config)
               ≫= fun acc' => for_each items body acc') s).
    destruct (check_service_health w name config s) as [[v|e0] s1] eqn:Hrun.
    + erewrite bind_run
        by (cbv beta iota; erewrite bind_run by exact Hrun; reflexivity).
      apply IH.
    + erewrite bind_raise
        by (cbv beta iota; erewrite bind_raise by exact Hrun; reflexivity).
      cbn [fst]. intros H. injection H as <-.
      apply (Hesc e0 eq_refl).
Qed.



(** X10: what escapes a sweep is a signal that is no instance of
    [Exception]; the handler of /metrics does not turn it into a 500
    reply but lets it through, leaving the state as the sweep left it. *)
Theorem signal_passes_through (w : world) (s : state) (e : exn) :
  fst (generate_metrics w s) = Raise e ->
  isinstance e Exception = false
  /\ handle_one_request w "GET" "/metrics" s
     = (Raise e, snd (generate_metrics w s)).
Proof.
  intros Hraise.
  assert (Hx : isinstance e Exception = false).
  { revert Hraise. unfold generate_metrics, services_items, time_time.
    unfold mbind at 1, M_bind at 1. unfold mbind at 1, M_bind at 1.
    match goal with |- context [for_each ?xs ?body ?acc s] =>
      pose proof (for_each_escape w xs e acc s) as Hesc;
      destruct (for_each xs body acc s) as [[lines|e0] s1]
    end.
    - intros H. discriminate H.
    - cbn [fst] in *. intros H. injection H as ->. apply Hesc. reflexivity. }
  split; [exact Hx|].
  change (handle_one_request w "GET" "/metrics" s)
    with (try_except
            (metrics ← generate_metrics w;
             mret (Reply 200 [("Content-Type", "text/plain; version=0.0.4")]
                     metrics))
            (fun e =>
               if isinstance e Exception then
                 logger_error ("Error generating metrics: " +:+ exn_str e);;
                 mret (ErrorReply 500
                         ("Internal Server Error: " +:+ exn_str e))
               else raise e) s).
  unfold try_except, mbind, M_bind.
  destruct (generate_metrics w s) as [[out|e0] s1]; [discriminate Hraise|].
  cbn [fst] in Hraise. injection Hraise as ->. rewrite Hx. reflexivity.
Qed.

Lemma signal_passes_through_witness :
  isinstance interrupt Exception = false
  /\ handle_one_request interrupted_after_one "GET" "/metrics"
       (boot SERVICES_entries)
     = (Raise interrupt,
        snd (generate_metrics interrupted_after_one (boot SERVICES_entries))).
Proof.
  apply (signal_passes_through interrupted_after_one (boot SERVICES_entries)
           interrupt).
  vm_compute. reflexivity.
Defined.

(** ** The calls that are made *)

(** X11: every call a probe makes goes to the url of its configuration,
    with the timeout of its configuration and with redirects followed; a
    GET carries no data and no header, a POST carries the configured body
    (the empty string when there is none) and the one header
    Content-Type: application/json. *)
Theorem call_matches_configuration (w : world) (name : string)
    (config : gmap string pyval) (s : state) (r : request) :
  outbound (snd (check_service_health w name config s))
  = (outbound s ++ [r])%list ->
  config !! "url" = Some (req_url r)
  /\ config !! "timeout" = Some (req_timeout r)
  /\ req_allow_redirects r = true
  /\ match req_method r with
     | GET => req_data r = None /\ req_headers r = []
     | POST => req_data r = Some (dict_get config "body" (PyStr ""))
               /\ req_headers r = [("Content-Type", "application/json")]
     end.
Proof.
  intros Hsent. rewrite check_service_health_outbound in Hsent.
  apply app_inv_head in Hsent.
  unfold probe_request in Hsent.
  destruct (dict_get config "method" (PyStr "GET")) as [m| |];
    try discriminate Hsent.
  destruct (config !! "url") as [u|]; try discriminate Hsent.
  destruct (config !! "timeout") as [t|]; try discriminate Hsent.
  cbn [option_list] in Hsent. injection Hsent as <-.
  destruct (String.eqb (upper m) "POST"); cbn; auto.
Qed.

Lemma call_matches_configuration_witness :
  relations_config !! "url"
  = Some (PyStr "http://kessel-relations-api:8000/api/authz/v1beta1/tuples")
  /\ relations_config !! "timeout" = Some (PyInt 5)
  /\ true = true
  /\ (Some (PyStr ("{" +:+ dquote +:+ "tuples" +:+ dquote +:+ ":[]}"))
      = Some (dict_get relations_config "body" (PyStr ""))
      /\ [("Content-Type", "application/json")]
         = [("Content-Type", "application/json")]).
Proof.
  apply (call_matches_configuration (failing read_timeout 0) "relations-api"
           relations_config (boot SERVICES_entries)
           (MkRequest POST
              (PyStr "http://kessel-relations-api:8000/api/authz/v1beta1/tuples")
              (Some (PyStr ("{" +:+ dquote +:+ "tuples" +:+ dquote +:+ ":[]}")))
              [("Content-Type", "application/json")] (PyInt 5) true)).
  vm_compute. reflexivity.
Defined.

(** X12: a sweep of the registry as it is written in the source makes
    four calls on a network that raises only instances of [Exception]:
    the POST to relations-api with the tuples body, then the GETs to
    inventory-api, rbac and host-inventory, each with a timeout of 5. *)
Theorem shipped_sweep_calls (w : world) :
  raises_only_Exception w ->
  outbound (snd (generate_metrics w (boot SERVICES_entries)))
  = [MkRequest POST
       (PyStr "http://kessel-relations-api:8000/api/authz/v1beta1/tuples")
       (Some (PyStr ("{" +:+ dquote +:+ "tuples" +:+ dquote +:+ ":[]}")))
       [("Content-Type", "application/json")] (PyInt 5) true;
     MkRequest GET
       (PyStr "http://kessel-inventory-api:8000/api/kessel/v1/livez")
       None [] (PyInt 5) true;
     MkRequest GET (PyStr "http://insights-rbac:8080/api/rbac/v1/status/")
       None [] (PyInt 5) true;
     MkRequest GET (PyStr "http://insights-host-inventory:8080/health")
       None [] (PyInt 5) true].
Proof.
  intros Hw.
  destruct (generate_metrics_exact w (boot SERVICES_entries) Hw)
    as (s' & Hrun & Hout & _).
  rewrite Hrun. cbn [snd]. rewrite Hout.
  vm_compute. reflexivity.
Qed.

Lemma shipped_sweep_calls_witness :
  List.length
    (outbound (snd (generate_metrics (answering 404 0)
                      (boot SERVICES_entries)))) = 4%nat.
Proof.
  rewrite (shipped_sweep_calls (answering 404 0)).
  - reflexivity.
  - intros h r e H. discriminate H.
Defined.
